(** * cppcouch: the [connection] class of [Couch/connection.h]

    A shallow embedding of [couchdb::connection<http_client>] and the
    properties of its session, database-lifecycle, listing and
    version-detection operations.

    The class keeps a shared [communication] object ([comm]) and two cached
    fields ([couchDBVersion], [couchdb_major]).  Every member function is a
    sequence of calls on [comm] that either returns or throws a
    [couchdb::error]; assignments made before a throw stay in place.  The
    embedding is therefore a state-and-exception monad over the record
    [connection] below. *)

From Stdlib Require Import String Ascii List ZArith Bool Lia.
From Stdlib Require Import DecimalString DecimalPos DecimalN.
Import ListNotations.

Local Open Scope string_scope.
Local Open Scope list_scope.

(* ================================================================== *)
(** ** Errors *)

(** Modelled from the spec: the enumeration [error::error_type] is declared in
    [error.h], which is not part of the sources at hand.  The five kinds that
    [connection.h] names are kept under their names; every other kind the
    transport can raise is a [transport_level] kind. *)
Inductive error_type : Type :=
| bad_response
| database_unavailable
| database_not_creatable
| database_not_deletable
| content_not_found
| transport_level (code : nat).

Definition error_type_eqb (a b : error_type) : bool :=
  match a, b with
  | bad_response, bad_response => true
  | database_unavailable, database_unavailable => true
  | database_not_creatable, database_not_creatable => true
  | database_not_deletable, database_not_deletable => true
  | content_not_found, content_not_found => true
  | transport_level m, transport_level n => Nat.eqb m n
  | _, _ => false
  end.

(** [error(kind)] and [error(kind, reason)]. *)
Record error : Type := mk_error { type : error_type; reason : string }.

Definition error_of (k : error_type) : error := mk_error k "".

(* ================================================================== *)
(** ** JSON values *)

(** Modelled from the spec: [json::value] comes from the JSON library the
    repository includes through [shared.h]; the spec treats it as a black box
    and lets a mismatched access "yield an empty string".  The accessors below
    follow that reading: [get_string], [get_bool] and [get_array] return the
    type's default on a value of another type, and [operator[]] on a missing
    member is [null]. *)
#[warnings="-register-all"]
Inductive json : Type :=
| JNull
| JBool (b : bool)
| JInt (n : Z)
| JReal (mantissa exponent : Z)
| JString (s : string)
| JArray (items : list json)
| JObject (members : list (string * json)).

Definition is_object (v : json) : bool :=
  match v with JObject _ => true | _ => false end.

Definition is_array (v : json) : bool :=
  match v with JArray _ => true | _ => false end.

Fixpoint member (key : string) (ms : list (string * json)) : option json :=
  match ms with
  | [] => None
  | (k, v) :: rest => if String.eqb k key then Some v else member key rest
  end.

Definition is_member (key : string) (v : json) : bool :=
  match v with
  | JObject ms => match member key ms with Some _ => true | None => false end
  | _ => false
  end.

(** [v[key]] *)
Definition at_key (v : json) (key : string) : json :=
  match v with
  | JObject ms => match member key ms with Some x => x | None => JNull end
  | _ => JNull
  end.

Definition get_string (v : json) : string :=
  match v with JString s => s | _ => "" end.

Definition get_bool (v : json) : bool :=
  match v with JBool b => b | _ => false end.

Definition get_array (v : json) : list json :=
  match v with JArray l => l | _ => [] end.

(* ================================================================== *)
(** ** [std::string] operations used by the class *)

(** [s.find(c)]; [None] is [std::string::npos]. *)
Fixpoint find_char (c : ascii) (s : string) : option nat :=
  match s with
  | EmptyString => None
  | String a rest =>
      if Ascii.eqb a c then Some 0 else option_map S (find_char c rest)
  end.

(** [s.find(p)] for a string [p]. *)
Fixpoint find_str (p s : string) : option nat :=
  if String.prefix p s then Some 0
  else match s with
       | EmptyString => None
       | String _ rest => option_map S (find_str p rest)
       end.

Definition at_front (pos : option nat) : bool :=
  match pos with Some 0 => true | _ => false end.

(** [s.erase(pos)]: drops everything from index [pos] on. *)
Fixpoint erase_from (pos : nat) (s : string) : string :=
  match pos, s with
  | 0, _ => EmptyString
  | S p, EmptyString => EmptyString
  | S p, String a rest => String a (erase_from p rest)
  end.

(** [s.erase(0, n)]: drops the first [n] characters. *)
Fixpoint erase_front (n : nat) (s : string) : string :=
  match n, s with
  | 0, _ => s
  | S p, EmptyString => EmptyString
  | S p, String _ rest => erase_front p rest
  end.

Definition empty (s : string) : bool :=
  match s with EmptyString => true | _ => false end.

(** [std::to_string(n)] for an unsigned [n]: its decimal digits. *)
Definition to_string (n : N) : string :=
  NilZero.string_of_uint (N.to_uint n).

(* ------------------------------------------------------------------ *)
(** *** [std::istringstream >> int] *)

Definition INT_MIN : Z := - 2 ^ 31.
Definition INT_MAX : Z := 2 ^ 31 - 1.

Definition in_int_range (v : Z) : bool :=
  ((INT_MIN <=? v) && (v <=? INT_MAX))%Z.

(** [std::isspace] in the classic locale. *)
Definition is_space (a : ascii) : bool :=
  let n := nat_of_ascii a in
  Nat.eqb n 32 || (Nat.leb 9 n && Nat.leb n 13).

Definition is_digit (a : ascii) : bool :=
  let n := nat_of_ascii a in Nat.leb 48 n && Nat.leb n 57.

Definition digit_value (a : ascii) : Z := Z.of_nat (nat_of_ascii a - 48).

Fixpoint skip_ws (s : string) : string :=
  match s with
  | String a rest => if is_space a then skip_ws rest else s
  | EmptyString => EmptyString
  end.

(** The digits at the front of [s], accumulated in base ten onto [acc];
    the count says how many digits were read. *)
Fixpoint read_digits (acc : Z) (count : nat) (s : string) : Z * nat :=
  match s with
  | String a rest =>
      if is_digit a then read_digits (10 * acc + digit_value a) (S count) rest
      else (acc, count)
  | EmptyString => (acc, count)
  end.

Definition read_sign (body : string) : bool * string :=
  match body with
  | String a rest =>
      if Ascii.eqb a "-" then (true, rest)
      else if Ascii.eqb a "+" then (false, rest)
      else (false, body)
  | EmptyString => (false, body)
  end.

(** Formatted extraction of an [int]: leading white space is skipped, one
    sign is accepted, at least one digit is required and the value has to fit
    an [int]; [None] is a stream left in a failed state. *)
Definition extract_int (s : string) : option Z :=
  let '(negative, digits) := read_sign (skip_ws s) in
  let '(magnitude, count) := read_digits 0 0 digits in
  match count with
  | 0 => None
  | S _ =>
      let v := if negative then (- magnitude)%Z else magnitude in
      if in_int_range v then Some v else None
  end.

(** The part of the version string that [get_couchdb_info] hands to the
    stream: the copy, cut at its first ['.'] when it has one. *)
Definition major_component (version : string) : string :=
  match find_char "." version with
  | Some pos => erase_from pos version
  | None => version
  end.

(** The value [get_couchdb_info] leaves in [couchdb_major]. *)
Definition major_of_version (version : string) : Z :=
  match extract_int (major_component version) with
  | Some v => v
  | None => (-1)%Z
  end.

(* ================================================================== *)
(** ** The communication object *)

Inductive auth_type : Type := auth_none | auth_basic | auth_cookie.

Definition auth_type_eqb (a b : auth_type) : bool :=
  match a, b with
  | auth_none, auth_none | auth_basic, auth_basic
  | auth_cookie, auth_cookie => true
  | _, _ => false
  end.

Record user : Type := mk_user { username : string; password : string }.

(** The arguments of one [comm->get_data(path, method, body, serverRootQuery)]
    or [comm->get_raw_data(path, method)] call. *)
Record request : Type := mk_request {
  path : string;
  method : string;
  body : string;
  server_root : bool
}.

Record node_connection : Type := mk_node {
  node_port : N;
  node_name : string
}.

Record cluster_connection : Type := mk_cluster { cluster_port : N }.

Record database : Type := mk_database { db_name : string }.

(** What the class needs from outside [connection.h]: the two helpers of
    [shared.h], the HTTP exchange behind [communication::get_data] and
    [communication::get_raw_data], and the nodes of a cluster connection.
    [W] is everything these calls can read and change besides the
    authentication type and the user (the server, the cookie held by the
    client); the calls see the authentication type and the user but do not
    assign them.

    Modelled from the spec: [cluster_connection] is declared in a header
    that is not part of the sources at hand.  Section 3 has it as an ordered
    collection of node connections; [cluster_nodes] is that collection, in
    the cluster's order, as the cluster connection gets it over the shared
    transport. *)
Class Communication (W : Type) : Type := {
  url_encode : string -> string;
  json_to_string : json -> string;
  exchange : auth_type -> user -> request -> W -> W * (error + json);
  exchange_raw : auth_type -> user -> request -> W -> W * (error + string);
  cluster_nodes :
    cluster_connection -> auth_type -> user -> W ->
    W * (error + list node_connection)
}.

(** What a run leaves behind, in order: the requests handed to [comm] with
    their outcome, and the [database] objects constructed. *)
Inductive event : Type :=
| Exchanged (q : request) (r : error + json)
| ExchangedRaw (q : request) (r : error + string)
| Built (name : string).

Section Connection.

Context {W : Type} {CM : Communication W}.

(** The object: the fields of [*comm] that the class reads and writes, the
    two cached fields of [connection] itself, and the journal of events. *)
Record connection : Type := mk_connection {
  auth : auth_type;
  usr : user;
  wire : W;
  couchDBVersion : string;
  couchdb_major : Z;
  journal : list event
}.

(* ------------------------------------------------------------------ *)
(** *** Member functions as state transformers that may throw *)

Definition M (A : Type) : Type := connection -> connection * (error + A).

Definition ret {A} (a : A) : M A := fun c => (c, inr a).

Definition throw {A} (e : error) : M A := fun c => (c, inl e).

Definition bind {A B} (m : M A) (k : A -> M B) : M B :=
  fun c =>
    match m c with
    | (c', inr a) => k a c'
    | (c', inl e) => (c', inl e)
    end.

(** [try { m } catch (error &e) { h e }] *)
Definition try_catch {A} (m : M A) (h : error -> M A) : M A :=
  fun c =>
    match m c with
    | (c', inl e) => h e c'
    | done => done
    end.

Notation "x <- m ;; k" := (bind m (fun x => k))
  (at level 61, m at next level, right associativity).
Notation "m ;;; k" := (bind m (fun _ => k))
  (at level 61, right associativity).

Definition record (e : event) (c : connection) : connection :=
  mk_connection (auth c) (usr c) (wire c) (couchDBVersion c) (couchdb_major c)
                (journal c ++ [e]).

Definition with_wire (w : W) (c : connection) : connection :=
  mk_connection (auth c) (usr c) w (couchDBVersion c) (couchdb_major c)
                (journal c).

(** [comm->get_data(path, method = "GET", body = "", serverRootQuery = false)] *)
Definition get_data (p m b : string) (root : bool) : M json :=
  fun c =>
    let q := mk_request p m b root in
    let '(w, r) := exchange (auth c) (usr c) q (wire c) in
    (record (Exchanged q r) (with_wire w c), r).

(** [comm->get_raw_data(path, method)] *)
Definition get_raw_data (p m : string) : M string :=
  fun c =>
    let q := mk_request p m "" false in
    let '(w, r) := exchange_raw (auth c) (usr c) q (wire c) in
    (record (ExchangedRaw q r) (with_wire w c), r).

(** Reading a field. *)
Definition gets {A} (field : connection -> A) : M A :=
  fun c => (c, inr (field c)).

Definition get_auth_type : M auth_type := gets auth.

Definition set_auth_type (t : auth_type) : M unit :=
  fun c =>
    (mk_connection t (usr c) (wire c) (couchDBVersion c) (couchdb_major c)
                   (journal c), inr tt).

Definition get_user : M user := gets usr.

(** [database_type(comm, name)] *)
Definition new_database (name : string) : M database :=
  fun c => (record (Built name) c, inr (mk_database name)).

(* ------------------------------------------------------------------ *)
(** *** Server metadata *)

Definition set_couchdb_info (version : string) (major : Z) : M unit :=
  fun c =>
    (mk_connection (auth c) (usr c) (wire c) version major (journal c), inr tt).

Definition get_couchdb_info : M unit :=
  response <- get_data "" "GET" "" true ;;
  if negb (is_object response) then throw (error_of bad_response)
  else
    let version := get_string (at_key response "version") in
    let copy :=
      match find_char "." version with
      | Some pos => erase_from pos version
      | None => version
      end in
    set_couchdb_info version
      (match extract_int copy with Some v => v | None => (-1)%Z end).

Definition get_couchdb_version : M string :=
  get_couchdb_info ;;; gets couchDBVersion.

Definition get_major_version : M Z :=
  get_couchdb_info ;;; gets couchdb_major.

Definition get_supports_clusters : M bool :=
  major <- get_major_version ;; ret (2 <=? major)%Z.

(* ------------------------------------------------------------------ *)
(** *** Database listing *)

(** The test of the filtering loops:
    [name.find('_') != 0 && name.find("shards/") != 0]. *)
Definition not_reserved (name : string) : bool :=
  negb (at_front (find_char "_" name))
  && negb (at_front (find_str "shards/" name)).

Definition list_db_names : M (list string) :=
  response <- get_data "/_all_dbs" "GET" "" false ;;
  if negb (is_array response) then throw (error_of database_unavailable)
  else
    ret (fold_left
           (fun dbs item =>
              if not_reserved (get_string item)
              then dbs ++ [get_string item] else dbs)
           (get_array response) []).

Definition list_all_db_names : M (list string) :=
  response <- get_data "/_all_dbs" "GET" "" false ;;
  if negb (is_array response) then throw (error_of database_unavailable)
  else
    ret (fold_left (fun dbs item => dbs ++ [get_string item])
                   (get_array response) []).

(** The loops of [list_dbs] and [list_all_dbs] construct a [database] per
    kept entry. *)
Fixpoint build_each (keep : string -> bool) (items : list json)
                    (dbs : list database) : M (list database) :=
  match items with
  | [] => ret dbs
  | item :: rest =>
      if keep (get_string item)
      then d <- new_database (get_string item) ;;
           build_each keep rest (dbs ++ [d])
      else build_each keep rest dbs
  end.

Definition list_dbs : M (list database) :=
  response <- get_data "/_all_dbs" "GET" "" false ;;
  if negb (is_array response) then throw (error_of database_unavailable)
  else build_each not_reserved (get_array response) [].

Definition list_all_dbs : M (list database) :=
  response <- get_data "/_all_dbs" "GET" "" false ;;
  if negb (is_array response) then throw (error_of database_unavailable)
  else build_each (fun _ => true) (get_array response) [].

(* ------------------------------------------------------------------ *)
(** *** Database lifecycle *)

Definition get_db (db : string) : M database :=
  get_raw_data ("/" ++ url_encode db) "HEAD" ;;;
  new_database db.

(** Modelled from the spec: [database::exists] is declared in [database.h],
    which is not part of the sources at hand.  Following section 4.3, the
    database answers [true] when the HEAD request on its path succeeds,
    [false] when it fails with [content_not_found], and lets any other error
    through. *)
Definition database_exists (d : database) : M bool :=
  try_catch
    (get_raw_data ("/" ++ url_encode (db_name d)) "HEAD" ;;; ret true)
    (fun e =>
       if error_type_eqb (type e) content_not_found then ret false
       else throw e).

Definition db_exists (db : string) : M bool :=
  d <- new_database db ;; database_exists d.

Definition create_db (db : string) : M database :=
  response <- get_data ("/" ++ url_encode db) "PUT" "" false ;;
  if negb (is_object response) then throw (error_of database_unavailable)
  else if is_member "error" response
  then throw (mk_error database_not_creatable
                       (get_string (at_key response "reason")))
  else if negb (get_bool (at_key response "ok"))
  then throw (error_of database_not_creatable)
  else new_database db.

Definition remove_db (db : string) : M unit :=
  response <- get_data ("/" ++ url_encode db) "DELETE" "" false ;;
  if negb (is_object response) then throw (error_of database_not_deletable)
  else if is_member "error" response
  then throw (mk_error database_not_deletable
                       (get_string (at_key response "reason")))
  else if negb (get_bool (at_key response "ok"))
  then throw (error_of database_not_deletable)
  else ret tt.

Definition ensure_db_exists (db : string) : M database :=
  try_catch (get_db db)
    (fun e =>
       if negb (error_type_eqb (type e) content_not_found) then throw e
       else create_db db).

Definition ensure_db_is_deleted (db : string) : M unit :=
  try_catch (remove_db db)
    (fun e =>
       if negb (error_type_eqb (type e) content_not_found)
          && negb (error_type_eqb (type e) database_not_deletable)
       then throw e
       else ret tt).

(* ------------------------------------------------------------------ *)
(** *** Authentication *)

Definition logout : M unit :=
  t <- get_auth_type ;;
  match t with
  | auth_cookie => get_data "/_session" "DELETE" "" false ;;; ret tt
  | _ => ret tt
  end.

Definition login : M unit :=
  t <- get_auth_type ;;
  match t with
  | auth_basic | auth_cookie =>
      u <- get_user ;;
      let obj := JObject [("name", JString (username u));
                          ("password", JString (password u))] in
      set_auth_type auth_basic ;;;
      get_data "/_session" "POST" (json_to_string obj) false ;;;
      (if auth_type_eqb t auth_basic
       then set_auth_type auth_cookie ;;;
            try_catch logout (fun e => set_auth_type t ;;; throw e)
       else ret tt) ;;;
      set_auth_type t
  | auth_none => ret tt
  end.

Definition get_login_info : M json :=
  t <- get_auth_type ;;
  match t with
  | auth_cookie => get_data "/_session" "GET" "" false
  | _ => ret JNull
  end.

(* ------------------------------------------------------------------ *)
(** *** Users *)

Definition user_prefix : string := "org.couchdb.user:".

(** One turn of the loop of [list_user_names]. *)
Definition list_user_names_step (names : list string) (row : json)
  : list string :=
  let name := get_string (at_key row "id") in
  if at_front (find_char "_" name) then names
  else
    let name :=
      if at_front (find_str user_prefix name)
      then erase_front (String.length user_prefix) name
      else name in
    if negb (empty name) then names ++ [name] else names.

Definition list_user_names : M (list string) :=
  response <- get_data "/_users/_all_docs" "GET" "" false ;;
  if negb (is_object response) || negb (is_array (at_key response "rows"))
  then throw (error_of bad_response)
  else
    ret (fold_left list_user_names_step
                   (get_array (at_key response "rows")) []).

(* ------------------------------------------------------------------ *)
(** *** Cluster and node connections *)

(** [*cluster_connection(port, comm).begin()].

    Modelled from the spec: [begin()] points at the first node of the
    collection, and the pointer it is dereferenced to is that node.  On a
    cluster without nodes the source dereferences the end of the collection,
    which has no defined result; the model answers with the null pointer. *)
Definition cluster_begin (cl : cluster_connection)
  : M (option node_connection) :=
  fun c =>
    let '(w, r) := cluster_nodes cl (auth c) (usr c) (wire c) in
    (with_wire w c,
     match r with
     | inr members => inr (hd_error members)
     | inl e => inl e
     end).

Definition upgrade_to_cluster_connection (node_local_port : N)
  : M (option cluster_connection) :=
  supported <- get_supports_clusters ;;
  if supported then ret (Some (mk_cluster node_local_port))
  else ret None.

Definition upgrade_to_node_connection (node_local_port : N)
  : M (option node_connection) :=
  supported <- get_supports_clusters ;;
  if negb supported then ret (Some (mk_node node_local_port ""))
  else cluster_begin (mk_cluster node_local_port).

(* ------------------------------------------------------------------ *)
(** *** The remaining requests *)

Definition get_uuids (count : N) : M (list string) :=
  response <- get_data ("/_uuids?count=" ++ to_string count) "GET" "" false ;;
  if negb (is_object response) then throw (error_of bad_response)
  else
    let response := at_key response "uuids" in
    if negb (is_array response) then throw (error_of bad_response)
    else
      ret (fold_left (fun uuids val => uuids ++ [get_string val])
                     (get_array response) []).

Definition get_active_tasks : M json :=
  response <- get_data "/_active_tasks" "GET" "" false ;;
  if negb (is_array response) then throw (error_of bad_response)
  else ret response.

(** [create_user(name, pass, roles)]; the members of [obj] are written in
    the order of the assignments. *)
Definition create_user (name pass : string) (roles : json) : M json :=
  let obj :=
    JObject ([("name", JString name);
              ("password", if empty pass then JNull else JString pass)]
             ++ (if is_array roles then [("roles", roles)] else [])
             ++ [("type", JString "user")]) in
  get_data ("/_users/org.couchdb.user:" ++ url_encode name) "PUT"
           (json_to_string obj) false.

(** [create_user(_user, roles)] *)
Definition create_user_of (u : user) (roles : json) : M json :=
  create_user (username u) (password u) roles.

Definition get_user_info (name : string) : M json :=
  get_data ("/_users/org.couchdb.user:" ++ url_encode name) "GET" "" false.

Definition delete_user (name : string) : M json :=
  get_data ("/_users/org.couchdb.user:" ++ url_encode name) "DELETE" ""
           false.

End Connection.

Arguments connection W : clear implicits.
Arguments M W A : clear implicits.

(* ================================================================== *)
(** ** Reading a run *)

Section Observations.

Context {W : Type} {CM : Communication W}.

(** The connection a run ends in, and what it returned or threw. *)
Definition final {A} (run : connection W * (error + A)) : connection W :=
  fst run.

Definition outcome {A} (run : connection W * (error + A)) : error + A :=
  snd run.

Definition kind_of {A} (r : error + A) : option error_type :=
  match r with inl e => Some (type e) | inr _ => None end.

Definition request_of (e : event) : option request :=
  match e with
  | Exchanged q _ | ExchangedRaw q _ => Some q
  | Built _ => None
  end.

(** The requests of a journal that used HTTP method [m], in order. *)
Fixpoint requests_with (m : string) (j : list event) : list request :=
  match j with
  | [] => []
  | e :: rest =>
      match request_of e with
      | Some q =>
          if String.eqb (method q) m then q :: requests_with m rest
          else requests_with m rest
      | None => requests_with m rest
      end
  end.

(** The request each operation sends. *)
Definition root_request : request := mk_request "" "GET" "" true.
Definition all_dbs_request : request := mk_request "/_all_dbs" "GET" "" false.
Definition all_users_request : request :=
  mk_request "/_users/_all_docs" "GET" "" false.
Definition head_request (db : string) : request :=
  mk_request ("/" ++ url_encode db) "HEAD" "" false.
Definition put_request (db : string) : request :=
  mk_request ("/" ++ url_encode db) "PUT" "" false.
Definition delete_request (db : string) : request :=
  mk_request ("/" ++ url_encode db) "DELETE" "" false.
Definition session_post (u : user) : request :=
  mk_request "/_session" "POST"
             (json_to_string (JObject [("name", JString (username u));
                                       ("password", JString (password u))]))
             false.
Definition session_delete : request :=
  mk_request "/_session" "DELETE" "" false.

(* ------------------------------------------------------------------ *)
(** *** Evidence that a database exists *)

(** A PUT reply that [create_db] accepts. *)
Definition created_ok (response : json) : bool :=
  is_object response
  && negb (is_member "error" response)
  && get_bool (at_key response "ok").

Definition request_eqb (a b : request) : bool :=
  String.eqb (path a) (path b) && String.eqb (method a) (method b)
  && String.eqb (body a) (body b) && Bool.eqb (server_root a) (server_root b).

Definition is_string (v : json) : bool :=
  match v with JString _ => true | _ => false end.

(** The entry of a listing is the string [name]. *)
Definition names_database (name : string) (item : json) : bool :=
  match item with
  | JString s => String.eqb s name
  | _ => false
  end.

(** The event shows that the server has a database called [name]: a HEAD on
    its path that succeeded, a PUT on its path that created it, or a listing,
    an array, that has the string [name] among its entries. *)
Definition establishes (name : string) (e : event) : bool :=
  match e with
  | ExchangedRaw q (inr _) => request_eqb q (head_request name)
  | Exchanged q (inr response) =>
      (request_eqb q (put_request name) && created_ok response)
      || (request_eqb q all_dbs_request
          && match response with
             | JArray items => existsb (names_database name) items
             | _ => false
             end)
  | _ => false
  end.

(** Every [database] object constructed in [fresh] comes after an event, in
    [past] or earlier in [fresh], that establishes its name. *)
Fixpoint built_after_evidence (past fresh : list event) : bool :=
  match fresh with
  | [] => true
  | Built name :: rest =>
      existsb (establishes name) past
      && built_after_evidence (past ++ [Built name]) rest
  | e :: rest => built_after_evidence (past ++ [e]) rest
  end.

(** An operation that constructs [database] objects only on evidence it has
    gathered itself. *)
Definition builds_on_evidence {A} (op : M W A) : Prop :=
  forall c, exists fresh,
    journal (final (op c)) = journal c ++ fresh
    /\ built_after_evidence [] fresh = true.

(** The server answers [GET /_all_dbs] on this connection, when it answers
    with an array, with an array of strings. *)
Definition lists_strings (c : connection W) : Prop :=
  forall w items,
    exchange (auth c) (usr c) all_dbs_request (wire c)
    = (w, inr (JArray items)) ->
    forallb is_string items = true.

(** An operation that, where the server lists strings, constructs
    [database] objects only on evidence it has gathered itself. *)
Definition builds_on_listed_names {A} (op : M W A) : Prop :=
  forall c, lists_strings c ->
    exists fresh,
      journal (final (op c)) = journal c ++ fresh
      /\ built_after_evidence [] fresh = true.

Definition is_built (e : event) : bool :=
  match e with Built _ => true | _ => false end.

(** An operation that constructs no [database] object at all. *)
Definition builds_nothing {A} (op : M W A) : Prop :=
  forall c, exists fresh,
    journal (final (op c)) = journal c ++ fresh
    /\ forallb (fun e => negb (is_built e)) fresh = true.

(** All the requests of a journal, in order. *)
Fixpoint requests (j : list event) : list request :=
  match j with
  | [] => []
  | e :: rest =>
      match request_of e with
      | Some q => q :: requests rest
      | None => requests rest
      end
  end.

(** The request on the document of the user [name]. *)
Definition user_request (name m b : string) : request :=
  mk_request ("/_users/org.couchdb.user:" ++ url_encode name) m b false.

Definition uuids_request (count : N) : request :=
  mk_request ("/_uuids?count=" ++ to_string count) "GET" "" false.

(** The row that [/_users/_all_docs] has for the user [name]. *)
Definition user_row (name : string) : json :=
  JObject [("id", JString (user_prefix ++ name));
           ("key", JString (user_prefix ++ name))].

(** An operation that sends one request with method [m] on path [p] and
    hands back whatever the exchange gave, reply or error, unexamined. *)
Definition passes_through (op : M W json) (p m : string) : Prop :=
  forall c, exists q w,
    path q = p /\ method q = m
    /\ exchange (auth c) (usr c) q (wire c) = (w, outcome (op c))
    /\ journal (final (op c)) = journal c ++ [Exchanged q (outcome (op c))].


(** What the steadiness lemmas need of a relation: it holds between a
    connection and itself, it composes, and neither recording an event nor
    letting the transport move on breaks it. *)
Class Stable (R : connection W -> connection W -> Prop) : Prop := {
  stable_refl : forall c, R c c;
  stable_trans : forall a b c, R a b -> R b c -> R a c;
  stable_record : forall e c, R c (record e c);
  stable_wire : forall w c, R c (with_wire w c)
}.

(** Same authentication type and same user. *)
Definition same_session (c c' : connection W) : Prop :=
  auth c' = auth c /\ usr c' = usr c.

(** Same cached version fields. *)
Definition same_cache (c c' : connection W) : Prop :=
  couchDBVersion c' = couchDBVersion c /\ couchdb_major c' = couchdb_major c.

End Observations.

(* ------------------------------------------------------------------ *)
(** *** Names and numbers, in the words of the specification *)

(** "Begins with": the name has [p] at its front. *)
Definition begins_with (p name : string) : bool := String.prefix p name.

(** A name that [list_db_names] reports: it begins neither with ['_'] nor
    with ["shards/"]. *)
Definition listed_name (name : string) : bool :=
  negb (begins_with "_" name) && negb (begins_with "shards/" name).

(** The user name a row id stands for: none when the id begins with ['_'];
    otherwise the id without its ["org.couchdb.user:"] prefix when it has
    one; none when nothing is left. *)
Definition user_name_of_id (id : string) : option string :=
  if begins_with "_" id then None
  else
    let name :=
      if begins_with user_prefix id
      then String.substring (String.length user_prefix)
                            (String.length id - String.length user_prefix) id
      else id in
    if String.eqb name "" then None else Some name.

Definition user_names_of_rows (rows : list json) : list string :=
  flat_map
    (fun row =>
       match user_name_of_id (get_string (at_key row "id")) with
       | Some name => [name]
       | None => []
       end)
    rows.

(** The value of a string of decimal digits. *)
Fixpoint decimal_value (digits : string) : Z :=
  match digits with
  | EmptyString => 0
  | String d rest =>
      (digit_value d * 10 ^ Z.of_nat (String.length rest)
       + decimal_value rest)%Z
  end.

Fixpoint all_chars (p : ascii -> bool) (s : string) : bool :=
  match s with
  | EmptyString => true
  | String a rest => p a && all_chars p rest
  end.

Definition starts_with_digit (s : string) : bool :=
  match s with String a _ => is_digit a | EmptyString => false end.

(** The three ways an integer can be signed in the text. *)
Inductive sign_text : string -> Z -> Prop :=
| sign_none : sign_text "" 1
| sign_plus : sign_text "+" 1
| sign_minus : sign_text "-" (-1).

(** [s] has the integer [v] at its front: white space, a sign, then the
    longest run of digits, which is not empty. *)
Inductive leading_integer (s : string) (v : Z) : Prop :=
| leading_integer_intro (ws sg digits rest : string) (k : Z) :
    s = (ws ++ sg ++ digits ++ rest)%string ->
    all_chars is_space ws = true ->
    sign_text sg k ->
    digits <> "" ->
    all_chars is_digit digits = true ->
    starts_with_digit rest = false ->
    v = (k * decimal_value digits)%Z ->
    leading_integer s v.

(* ================================================================== *)
(** ** A scripted server *)

(** A server that answers request after request from a list of prepared
    replies, and fails with a transport error once the list is used up.  It
    serves to run the operations on concrete exchanges. *)
Definition script : Type := list (error + json).

(** A plain rendering of the values the operations send; strings are quoted
    as they are. *)
Fixpoint render (v : json) : string :=
  match v with
  | JNull => "null"
  | JBool true => "true"
  | JBool false => "false"
  | JInt n => NilZero.string_of_int (Z.to_int n)
  | JReal m e =>
      String.concat "" [NilZero.string_of_int (Z.to_int m); "e";
                        NilZero.string_of_int (Z.to_int e)]
  | JString s => String.concat "" [String (ascii_of_nat 34) ""; s;
                                   String (ascii_of_nat 34) ""]
  | JArray items =>
      String.concat "" ["["; String.concat "," (map render items); "]"]
  | JObject members =>
      String.concat ""
        ["{";
         String.concat ","
           (map (fun kv => String.concat ""
                             [String (ascii_of_nat 34) ""; fst kv;
                              String (ascii_of_nat 34) ""; ":";
                              render (snd kv)])
                members);
         "}"]
  end.

Definition out_of_script : error := error_of (transport_level 0).

Definition scripted_exchange (_ : auth_type) (_ : user) (_ : request)
                             (w : script) : script * (error + json) :=
  match w with
  | [] => ([], inl out_of_script)
  | reply :: rest => (rest, reply)
  end.

Definition scripted_exchange_raw (_ : auth_type) (_ : user) (_ : request)
                                 (w : script) : script * (error + string) :=
  match w with
  | [] => ([], inl out_of_script)
  | inl e :: rest => (rest, inl e)
  | inr _ :: rest => (rest, inr "")
  end.

#[export] Instance scripted : Communication script := {|
  url_encode := fun s => s;
  json_to_string := render;
  exchange := scripted_exchange;
  exchange_raw := scripted_exchange_raw;
  cluster_nodes := fun cl _ _ w =>
    (w, inr [mk_node (cluster_port cl) "couchdb@node1.example.com";
             mk_node (cluster_port cl) "couchdb@node2.example.com"])
|}.

(** A fresh connection to the scripted server. *)
Definition connect (t : auth_type) (replies : script) : connection script :=
  mk_connection t (mk_user "admin" "secret") replies "" 0 [].

(** The connections the properties below are run on. *)
Definition server_without_db : connection script :=
  connect auth_none [inl (error_of content_not_found)].

Definition server_creating_db : connection script :=
  connect auth_none [inl (error_of content_not_found);
                     inr (JObject [("ok", JBool true)])].

Definition server_answering_null : connection script :=
  connect auth_none [inr JNull].

Definition file_exists_reply : json :=
  JObject [("error", JString "file_exists");
           ("reason", JString "The database could not be created.")].

Definition server_with_existing_db : connection script :=
  connect auth_none [inr file_exists_reply].

Definition welcome (version : string) : json :=
  JObject [("couchdb", JString "Welcome"); ("version", JString version)].

Definition server_of_version (version : string) : connection script :=
  connect auth_none [inr (welcome version)].

Definition sample_listing : json :=
  JArray [JString "_replicator"; JString "shards/x";
          JString "alpha"; JString "beta"].

Definition server_listing : connection script :=
  connect auth_none [inr sample_listing].

Definition sample_rows : list json :=
  [JObject [("id", JString "org.couchdb.user:alice")];
   JObject [("id", JString "_design/x")]].

Definition server_with_users : connection script :=
  connect auth_none [inr (JObject [("total_rows", JInt 2);
                                   ("rows", JArray sample_rows)])].

Definition unauthorized : error :=
  mk_error (transport_level 401) "Name or password is incorrect.".

Definition server_rejecting_login : connection script :=
  connect auth_cookie [inl unauthorized].

Definition server_saying_ok : connection script :=
  connect auth_none [inr (JObject [("ok", JBool true)])].

Definition server_with_db : connection script :=
  connect auth_none [inr JNull].

Definition server_accepting_login (t : auth_type) : connection script :=
  connect t [inr (JObject [("ok", JBool true)]);
             inr (JObject [("ok", JBool true)])].

Definition server_with_two_uuids : connection script :=
  connect auth_none
    [inr (JObject [("uuids", JArray [JString "6e1295ed6c29495e54cc05947f18c8af";
                                     JString "4b4c4c3e5a2b4a2dd5cf5e0a4a0b0f1c"])])].

Definition server_with_tasks : connection script :=
  connect auth_none [inr (JArray [JObject [("type", JString "indexer")]])].

Definition server_refusing_delete : connection script :=
  connect auth_none
    [inr (JObject [("error", JString "unauthorized");
                   ("reason", JString "You are not a server admin.")])].

Definition server_named (names : list string) : connection script :=
  connect auth_none
    [inr (JObject [("rows", JArray (map user_row names))])].

(* ================================================================== *)
(** * Properties *)

(** ** Strings *)

Lemma prefix_empty (s : string) : String.prefix "" s = true.
Proof. destruct s; reflexivity. Qed.

Lemma find_char_front (c : ascii) (s : string) :
  at_front (find_char c s) = begins_with (String c "") s.
Proof.
  unfold begins_with. destruct s as [|a rest]; simpl; [reflexivity|].
  destruct (Ascii.eqb_spec a c) as [->|Hne].
  - destruct (ascii_dec c c) as [_|Habs]; [|contradiction].
    now rewrite prefix_empty.
  - destruct (ascii_dec c a) as [->|_]; [contradiction|].
    destruct (find_char c rest); reflexivity.
Qed.

Lemma find_str_front (p s : string) :
  at_front (find_str p s) = begins_with p s.
Proof.
  unfold begins_with. destruct s as [|a rest].
  - destruct p; reflexivity.
  - cbn [find_str]. destruct (String.prefix p (String a rest)); [reflexivity|].
    destruct (find_str p rest); reflexivity.
Qed.

Lemma not_reserved_listed (name : string) :
  not_reserved name = listed_name name.
Proof.
  unfold not_reserved, listed_name.
  now rewrite find_char_front, find_str_front.
Qed.

Lemma substring_whole (s : string) : substring 0 (String.length s) s = s.
Proof. induction s as [|a s IH]; simpl; [reflexivity | now rewrite IH]. Qed.

Lemma erase_front_substring (n : nat) (s : string) :
  erase_front n s = substring n (String.length s - n) s.
Proof.
  revert s. induction n as [|n IH]; intros s.
  - simpl. now rewrite Nat.sub_0_r, substring_whole.
  - destruct s as [|a s]; simpl; [reflexivity | apply IH].
Qed.

Lemma empty_eqb (s : string) : empty s = String.eqb s "".
Proof. now destruct s. Qed.

(** ** Loops that push onto a vector *)

Lemma fold_left_push {A B} (step : list B -> A -> list B) (g : A -> list B) :
  (forall acc x, step acc x = acc ++ g x) ->
  forall l acc, fold_left step l acc = acc ++ flat_map g l.
Proof.
  intros Hstep l. induction l as [|x l IH]; intros acc; simpl.
  - now rewrite app_nil_r.
  - now rewrite IH, Hstep, <- app_assoc.
Qed.

Lemma flat_map_filter_map {A B} (keep : B -> bool) (f : A -> B) (l : list A) :
  flat_map (fun x => if keep (f x) then [f x] else []) l
  = filter keep (map f l).
Proof.
  induction l as [|x l IH]; simpl; [reflexivity|].
  rewrite IH. now destruct (keep (f x)).
Qed.

Lemma flat_map_singleton {A B} (f : A -> B) (l : list A) :
  flat_map (fun x => [f x]) l = map f l.
Proof. induction l as [|x l IH]; simpl; [reflexivity | now rewrite IH]. Qed.

Lemma list_user_names_step_push (names : list string) (row : json) :
  list_user_names_step names row
  = names ++ match user_name_of_id (get_string (at_key row "id")) with
             | Some name => [name]
             | None => []
             end.
Proof.
  unfold list_user_names_step, user_name_of_id.
  rewrite find_char_front, find_str_front.
  destruct (begins_with "_" _); [now rewrite app_nil_r|].
  rewrite erase_front_substring, empty_eqb.
  destruct (begins_with user_prefix _);
    match goal with |- context [String.eqb ?n ""] =>
      destruct (String.eqb n "") end; simpl; now rewrite ?app_nil_r.
Qed.

(** ** Extraction of the major version *)

Local Open Scope string_scope.

Lemma digit_not_space (a : ascii) : is_digit a = true -> is_space a = false.
Proof.
  destruct a as [[] [] [] [] [] [] [] []]; try discriminate; reflexivity.
Qed.

Lemma digit_not_sign (a : ascii) :
  is_digit a = true -> Ascii.eqb a "-" = false /\ Ascii.eqb a "+" = false.
Proof.
  destruct a as [[] [] [] [] [] [] [] []]; try discriminate; now split.
Qed.

Lemma skip_ws_app (ws body : string) :
  all_chars is_space ws = true -> skip_ws (ws ++ body) = skip_ws body.
Proof.
  induction ws as [|a ws IH]; simpl; [reflexivity|].
  intros [Ha Hws]%andb_prop. rewrite Ha. now apply IH.
Qed.

Lemma skip_ws_split (s : string) :
  exists ws, s = ws ++ skip_ws s /\ all_chars is_space ws = true.
Proof.
  induction s as [|a s [ws [Heq Hws]]]; simpl.
  - now exists "".
  - destruct (is_space a) eqn:Ha.
    + exists (String a ws). simpl. rewrite Ha, Hws. now rewrite <- Heq.
    + now exists "".
Qed.

Lemma read_digits_app (digits rest : string) :
  all_chars is_digit digits = true -> starts_with_digit rest = false ->
  forall acc count,
    read_digits acc count (digits ++ rest)
    = ((acc * 10 ^ Z.of_nat (String.length digits)
        + decimal_value digits)%Z,
       count + String.length digits).
Proof.
  intros Hds Hrest. induction digits as [|d digits IH]; intros acc count.
  - simpl. replace (acc * 1 + 0)%Z with acc by lia. rewrite Nat.add_0_r.
    destruct rest as [|a rest]; simpl in *; [reflexivity | now rewrite Hrest].
  - simpl in Hds. apply andb_prop in Hds as [Hd Hds].
    cbn [append read_digits]. rewrite Hd, (IH Hds).
    cbn [String.length decimal_value].
    rewrite Nat2Z.inj_succ, Z.pow_succ_r by lia.
    f_equal; [ring | lia].
Qed.

Lemma read_digits_split (s : string) :
  exists digits rest,
    s = digits ++ rest /\ all_chars is_digit digits = true
    /\ starts_with_digit rest = false.
Proof.
  induction s as [|a s (digits & rest & Heq & Hds & Hrest)].
  - now exists "", "".
  - destruct (is_digit a) eqn:Ha.
    + exists (String a digits), rest. simpl. rewrite Ha, Hds, Hrest.
      now rewrite <- Heq.
    + exists "", (String a s). simpl. now rewrite Ha.
Qed.

(** What the stream does on a text that starts with an integer. *)
Lemma extract_int_leading (s : string) (v : Z) :
  leading_integer s v ->
  extract_int s = if in_int_range v then Some v else None.
Proof.
  intros [ws sg digits rest k -> Hws Hsg Hne Hds Hrest ->].
  unfold extract_int. rewrite (skip_ws_app _ _ Hws).
  destruct digits as [|d digits]; [contradiction|].
  pose proof Hds as Hd. simpl in Hd. apply andb_prop in Hd as [Hd _].
  destruct (digit_not_sign d Hd) as [Hm Hp].
  assert (Hread : forall acc count,
             read_digits acc count (String d digits ++ rest)
             = ((acc * 10 ^ Z.of_nat (String.length (String d digits))
                 + decimal_value (String d digits))%Z,
                count + String.length (String d digits)))
    by (apply read_digits_app; assumption).
  assert (Hzero : forall m : Z,
             (0 * 10 ^ Z.of_nat (String.length (String d digits)) + m = m)%Z)
    by (intros; lia).
  destruct Hsg.
  - cbn [append skip_ws].
    rewrite (digit_not_space d Hd). cbn [read_sign]. rewrite Hm, Hp.
    change (String d (digits ++ rest)) with (String d digits ++ rest).
    rewrite Hread, Hzero. cbn [String.length Nat.add].
    now rewrite Z.mul_1_l.
  - change (read_sign (skip_ws ("+" ++ String d digits ++ rest)))
      with (false, String d digits ++ rest).
    cbv beta iota. rewrite Hread, Hzero. cbn [String.length Nat.add].
    now rewrite Z.mul_1_l.
  - change (read_sign (skip_ws ("-" ++ String d digits ++ rest)))
      with (true, String d digits ++ rest).
    cbv beta iota. rewrite Hread, Hzero. cbn [String.length Nat.add].
    now replace (-1 * decimal_value (String d digits))%Z
      with (- decimal_value (String d digits))%Z by lia.
Qed.

(** A text either makes the stream fail or starts with an integer. *)
Lemma extract_int_fails_or_leading (s : string) :
  extract_int s = None \/ exists v, leading_integer s v.
Proof.
  destruct (skip_ws_split s) as (ws & Hs & Hws).
  unfold extract_int.
  assert (Hcases : exists sg k tail,
             skip_ws s = sg ++ tail /\ sign_text sg k
             /\ snd (read_sign (skip_ws s)) = tail).
  { destruct (skip_ws s) as [|a body]; [now exists "", 1%Z, ""; repeat split; constructor|].
    unfold read_sign.
    destruct (Ascii.eqb_spec a "-") as [->|_];
      [exists "-", (-1)%Z, body; repeat split; constructor|].
    destruct (Ascii.eqb_spec a "+") as [->|_];
      [exists "+", 1%Z, body; repeat split; constructor|].
    exists "", 1%Z, (String a body). repeat split; constructor. }
  destruct Hcases as (sg & k & tail & Hbody & Hsg & Htail).
  destruct (read_sign (skip_ws s)) as [negative digits]. simpl in Htail.
  subst digits.
  destruct (read_digits_split tail) as (digits & rest & Htl & Hds & Hrest).
  rewrite Htl, (read_digits_app _ _ Hds Hrest).
  destruct digits as [|d digits]; [now left|].
  right. eexists.
  apply (leading_integer_intro s _ ws sg (String d digits) rest k);
    try assumption; try reflexivity; try discriminate.
  now rewrite <- Htl, <- Hbody.
Qed.

Lemma find_char_app (c : ascii) (pre post : string) :
  find_char c pre = None ->
  find_char c (pre ++ String c post) = Some (String.length pre).
Proof.
  induction pre as [|a pre IH]; simpl.
  - now rewrite Ascii.eqb_refl.
  - destruct (Ascii.eqb a c); [discriminate|].
    destruct (find_char c pre); [discriminate|].
    intros _. now rewrite IH.
Qed.

Lemma erase_from_app (pre post : string) :
  erase_from (String.length pre) (pre ++ post) = pre.
Proof. induction pre as [|a pre IH]; simpl; [reflexivity | now rewrite IH]. Qed.

Lemma major_component_cut (pre post : string) :
  find_char "." pre = None ->
  major_component (pre ++ "." ++ post) = pre /\ major_component pre = pre.
Proof.
  intros Hnone. unfold major_component. rewrite Hnone. split; [|reflexivity].
  change ("." ++ post) with (String "." post).
  now rewrite (find_char_app _ _ _ Hnone), erase_from_app.
Qed.

Local Open Scope list_scope.

Section Properties.

Context {W : Type} {CM : Communication W}.

Implicit Types (c : connection W) (w : W).

(** ** Listing databases and users *)

(** C6: when the reply to [GET /_all_dbs] is an array, [list_all_db_names]
    returns every entry in order and [list_db_names] returns, in order, the
    entries that begin neither with ['_'] nor with ["shards/"]; on the list
    [_replicator, shards/x, alpha, beta] that is [alpha, beta]; when the
    reply is not an array both throw [database_unavailable]. *)
Theorem list_db_names_filters_reserved c w (reply : error + json) :
  exchange (auth c) (usr c) all_dbs_request (wire c) = (w, reply) ->
  (forall items, reply = inr (JArray items) ->
     outcome (list_all_db_names c) = inr (map get_string items)
     /\ outcome (list_db_names c)
        = inr (filter listed_name (map get_string items)))
  /\ (forall response, reply = inr response -> is_array response = false ->
      outcome (list_all_db_names c) = inl (error_of database_unavailable)
      /\ outcome (list_db_names c) = inl (error_of database_unavailable))
  /\ (reply = inr (JArray [JString "_replicator"; JString "shards/x";
                           JString "alpha"; JString "beta"]) ->
      outcome (list_db_names c) = inr ["alpha"; "beta"]).
Proof.
  intros Hx.
  assert (Hall : forall items, reply = inr (JArray items) ->
            outcome (list_all_db_names c) = inr (map get_string items)
            /\ outcome (list_db_names c)
               = inr (filter listed_name (map get_string items))).
  { intros items ->.
    unfold list_all_db_names, list_db_names, outcome, bind, get_data.
    fold all_dbs_request. rewrite Hx. simpl. split; f_equal.
    - rewrite (fold_left_push _ (fun item => [get_string item]));
        [apply flat_map_singleton | reflexivity].
    - rewrite (fold_left_push _
                 (fun item => if listed_name (get_string item)
                              then [get_string item] else [])).
      + apply flat_map_filter_map.
      + intros acc x. rewrite not_reserved_listed.
        destruct (listed_name (get_string x)); now rewrite ?app_nil_r. }
  split; [exact Hall|]. split.
  - intros response -> Hna.
    unfold list_all_db_names, list_db_names, outcome, bind, get_data.
    fold all_dbs_request. rewrite Hx. simpl. now rewrite Hna.
  - intros Hr. now destruct (Hall _ Hr) as [_ ->].
Qed.

(** C7: [list_user_names] throws [bad_response] unless the reply to
    [GET /_users/_all_docs] is an object whose ["rows"] member is an array;
    otherwise it returns, in row order, the user name of each row id: ids
    that begin with ['_'] are left out, the prefix ["org.couchdb.user:"] is
    removed where present, and names that end up empty are left out.  The
    id ["org.couchdb.user:alice"] gives ["alice"], the id ["_design/x"]
    gives nothing. *)
Theorem list_user_names_normalizes c w (reply : error + json) :
  exchange (auth c) (usr c) all_users_request (wire c) = (w, reply) ->
  (forall response, reply = inr response ->
     is_object response = false \/ is_array (at_key response "rows") = false ->
     outcome (list_user_names c) = inl (error_of bad_response))
  /\ (forall response rows, reply = inr response ->
      is_object response = true -> at_key response "rows" = JArray rows ->
      outcome (list_user_names c) = inr (user_names_of_rows rows))
  /\ (forall response, reply = inr response ->
      is_object response = true ->
      at_key response "rows"
      = JArray [JObject [("id", JString "org.couchdb.user:alice")];
                JObject [("id", JString "_design/x")]] ->
      outcome (list_user_names c) = inr ["alice"]).
Proof.
  intros Hx.
  assert (Hrows : forall response rows, reply = inr response ->
            is_object response = true -> at_key response "rows" = JArray rows ->
            outcome (list_user_names c) = inr (user_names_of_rows rows)).
  { intros response rows -> Hobj Hrows.
    unfold list_user_names, outcome, bind, get_data.
    fold all_users_request. rewrite Hx. simpl.
    rewrite Hobj, Hrows. simpl. f_equal.
    unfold user_names_of_rows.
    now rewrite (fold_left_push _ _ list_user_names_step_push). }
  split; [|split].
  - intros response -> Hbad.
    unfold list_user_names, outcome, bind, get_data.
    fold all_users_request. rewrite Hx. simpl.
    now destruct Hbad as [-> | ->]; rewrite ?orb_true_r.
  - exact Hrows.
  - intros response Hr Hobj Hgiven. now rewrite (Hrows _ _ Hr Hobj Hgiven).
Qed.


(** ** Server metadata *)

Lemma get_couchdb_info_run c w (reply : error + json) :
  exchange (auth c) (usr c) root_request (wire c) = (w, reply) ->
  get_couchdb_info c
  = match reply with
    | inr response =>
        if is_object response
        then
          let version := get_string (at_key response "version") in
          (mk_connection (auth c) (usr c) w version (major_of_version version)
                         (journal c ++ [Exchanged root_request reply]),
           inr tt)
        else (record (Exchanged root_request reply) (with_wire w c),
              inl (error_of bad_response))
    | inl e => (record (Exchanged root_request reply) (with_wire w c), inl e)
    end.
Proof.
  intros Hx. unfold get_couchdb_info, bind, get_data.
  fold root_request. rewrite Hx.
  destruct reply as [e|response]; [reflexivity|].
  cbv beta iota. now destruct (is_object response).
Qed.

Lemma get_major_version_run c w (reply : error + json) :
  exchange (auth c) (usr c) root_request (wire c) = (w, reply) ->
  journal (final (get_major_version c))
  = journal c ++ [Exchanged root_request reply]
  /\ outcome (get_major_version c)
     = match reply with
       | inr response =>
           if is_object response
           then inr (major_of_version (get_string (at_key response "version")))
           else inl (error_of bad_response)
       | inl e => inl e
       end.
Proof.
  intros Hx. unfold get_major_version, bind, final, outcome.
  rewrite (get_couchdb_info_run _ _ _ Hx).
  destruct reply as [e|response]; [now split|].
  now destruct (is_object response).
Qed.


(** C5: the major version depends only on the part of the version string
    before its first ['.']; it is the integer at the front of that part when
    there is one that fits an [int], and [-1] when there is none; a failed
    parse makes [get_major_version] return [-1], not throw; the version
    ["vNext"] gives [-1] and ["2.3.1"] gives [2]. *)
Theorem major_version_is_leading_integer c w (response : json) :
  exchange (auth c) (usr c) root_request (wire c) = (w, inr response) ->
  is_object response = true ->
  outcome (get_major_version c)
  = inr (major_of_version (get_string (at_key response "version")))
  /\ (forall pre post, find_char "." pre = None ->
      major_of_version (pre ++ "." ++ post) = major_of_version pre)
  /\ (forall version v,
      leading_integer (major_component version) v ->
      (INT_MIN <= v <= INT_MAX)%Z ->
      major_of_version version = v)
  /\ (forall version,
      (forall v, leading_integer (major_component version) v ->
                 ~ (INT_MIN <= v <= INT_MAX)%Z) ->
      major_of_version version = (-1)%Z)
  /\ (at_key response "version" = JString "vNext" ->
      outcome (get_major_version c) = inr (-1)%Z)
  /\ (at_key response "version" = JString "2.3.1" ->
      outcome (get_major_version c) = inr 2%Z).
Proof.
  intros Hx Hobj.
  destruct (get_major_version_run _ _ _ Hx) as [_ Hout].
  rewrite Hobj in Hout. rewrite Hout.
  split; [reflexivity|]. split; [|split; [|split; [|split]]].
  - intros pre post Hnone. unfold major_of_version.
    destruct (major_component_cut pre post Hnone) as [-> ->]. reflexivity.
  - intros version v Hlead Hrange. unfold major_of_version.
    rewrite (extract_int_leading _ _ Hlead). unfold in_int_range.
    destruct Hrange as [Hlo Hhi].
    apply Z.leb_le in Hlo, Hhi. now rewrite Hlo, Hhi.
  - intros version Hnone. unfold major_of_version.
    destruct (extract_int_fails_or_leading (major_component version))
      as [-> | [v Hlead]]; [reflexivity|].
    rewrite (extract_int_leading _ _ Hlead). unfold in_int_range.
    destruct (INT_MIN <=? v)%Z eqn:Hlo; [|reflexivity].
    destruct (v <=? INT_MAX)%Z eqn:Hhi; [|reflexivity].
    apply Z.leb_le in Hlo, Hhi. now destruct (Hnone v Hlead).
  - now intros ->.
  - now intros ->.
Qed.


(** ** Cluster and node connections *)

(** C8: [get_supports_clusters] is true exactly when the fetched major
    version is at least 2; [upgrade_to_cluster_connection] then returns a
    cluster connection on the given port, and a null pointer otherwise;
    [upgrade_to_node_connection] returns a node connection with an empty node
    name when clusters are not supported, and otherwise the first of the
    nodes of the cluster connection on that port, in the cluster's order. *)
Theorem cluster_upgrade_follows_major_version (port : N) c c'
        (r : error + Z) :
  get_major_version c = (c', r) ->
  (forall m, r = inr m ->
     exists b, get_supports_clusters c = (c', inr b)
               /\ (b = true <-> (2 <= m)%Z))
  /\ (forall m, r = inr m -> (2 <= m)%Z ->
      upgrade_to_cluster_connection port c
      = (c', inr (Some (mk_cluster port)))
      /\ upgrade_to_node_connection port c
         = cluster_begin (mk_cluster port) c')
  /\ (forall m, r = inr m -> (2 <= m)%Z ->
      forall w first others,
        cluster_nodes (mk_cluster port) (auth c') (usr c') (wire c')
        = (w, inr (first :: others)) ->
        upgrade_to_node_connection port c
        = (with_wire w c', inr (Some first)))
  /\ (forall m, r = inr m -> (m < 2)%Z ->
      upgrade_to_cluster_connection port c = (c', inr None)
      /\ upgrade_to_node_connection port c
         = (c', inr (Some (mk_node port ""))))
  /\ (forall e, r = inl e ->
      get_supports_clusters c = (c', inl e)
      /\ upgrade_to_cluster_connection port c = (c', inl e)
      /\ upgrade_to_node_connection port c = (c', inl e)).
Proof.
  intros Hrun.
  unfold upgrade_to_cluster_connection, upgrade_to_node_connection,
    get_supports_clusters, bind, ret. rewrite Hrun.
  split; [|split; [|split; [|split]]].
  - intros m ->. exists (2 <=? m)%Z. split; [reflexivity|].
    apply Z.leb_le.
  - intros m -> Hge. apply Z.leb_le in Hge. now rewrite Hge.
  - intros m -> Hge w first others Hnodes. apply Z.leb_le in Hge.
    rewrite Hge. cbn [negb]. unfold cluster_begin. now rewrite Hnodes.
  - intros m -> Hlt. apply Z.leb_gt in Hlt. now rewrite Hlt.
  - now intros e ->.
Qed.


(** ** Database lifecycle *)

Lemma error_type_eqb_eq (a b : error_type) :
  error_type_eqb a b = true <-> a = b.
Proof.
  destruct a, b; simpl; split; try discriminate; try reflexivity.
  - now intros ->%Nat.eqb_eq.
  - intros [= ->]. apply Nat.eqb_refl.
Qed.

Lemma error_type_eqb_neq (a b : error_type) :
  error_type_eqb a b = false <-> a <> b.
Proof.
  rewrite <- error_type_eqb_eq. now destruct (error_type_eqb a b).
Qed.

Lemma get_bool_true (v : json) : get_bool v = true <-> v = JBool true.
Proof.
  split; [|now intros ->].
  destruct v as [|b| | | | |]; try discriminate. simpl. now intros ->.
Qed.

Lemma get_db_run (db : string) c w (reply : error + string) :
  exchange_raw (auth c) (usr c) (head_request db) (wire c) = (w, reply) ->
  get_db db c
  = let heard := record (ExchangedRaw (head_request db) reply)
                        (with_wire w c) in
    match reply with
    | inr _ => (record (Built db) heard, inr (mk_database db))
    | inl e => (heard, inl e)
    end.
Proof.
  intros Hx. unfold get_db, bind, get_raw_data.
  fold (head_request db). rewrite Hx. now destruct reply.
Qed.

Lemma create_db_run (db : string) c w (reply : error + json) :
  exchange (auth c) (usr c) (put_request db) (wire c) = (w, reply) ->
  create_db db c
  = let heard := record (Exchanged (put_request db) reply) (with_wire w c) in
    match reply with
    | inr response =>
        if negb (is_object response)
        then (heard, inl (error_of database_unavailable))
        else if is_member "error" response
        then (heard, inl (mk_error database_not_creatable
                                   (get_string (at_key response "reason"))))
        else if negb (get_bool (at_key response "ok"))
        then (heard, inl (error_of database_not_creatable))
        else (record (Built db) heard, inr (mk_database db))
    | inl e => (heard, inl e)
    end.
Proof.
  intros Hx. unfold create_db, bind, get_data.
  fold (put_request db). rewrite Hx.
  destruct reply as [e|response]; [reflexivity|]. cbv beta iota zeta.
  destruct (negb (is_object response)); [reflexivity|].
  destruct (is_member "error" response); [reflexivity|].
  now destruct (negb (get_bool (at_key response "ok"))).
Qed.

Lemma remove_db_run (db : string) c w (reply : error + json) :
  exchange (auth c) (usr c) (delete_request db) (wire c) = (w, reply) ->
  remove_db db c
  = (record (Exchanged (delete_request db) reply) (with_wire w c),
     match reply with
     | inr response =>
         if negb (is_object response)
         then inl (error_of database_not_deletable)
         else if is_member "error" response
         then inl (mk_error database_not_deletable
                            (get_string (at_key response "reason")))
         else if negb (get_bool (at_key response "ok"))
         then inl (error_of database_not_deletable)
         else inr tt
     | inl e => inl e
     end).
Proof.
  intros Hx. unfold remove_db, bind, get_data.
  fold (delete_request db). rewrite Hx.
  destruct reply as [e|response]; [reflexivity|]. cbv beta iota zeta.
  destruct (negb (is_object response)); [reflexivity|].
  destruct (is_member "error" response); [reflexivity|].
  now destruct (negb (get_bool (at_key response "ok"))).
Qed.

(** C4, as the code has it: [create_db] throws [database_unavailable] when
    the reply to the PUT is not an object; [database_not_creatable] with the
    reply's ["reason"] string when the object has an ["error"] member;
    [database_not_creatable] without a reason when ["ok"] is not [true]; and
    returns the database of that name otherwise. *)
Theorem create_db_classifies_reply (db : string) c w (response : json) :
  exchange (auth c) (usr c) (put_request db) (wire c) = (w, inr response) ->
  (is_object response = false ->
   outcome (create_db db c) = inl (error_of database_unavailable))
  /\ (is_object response = true -> is_member "error" response = true ->
      outcome (create_db db c)
      = inl (mk_error database_not_creatable
                      (get_string (at_key response "reason"))))
  /\ (is_object response = true -> is_member "error" response = false ->
      at_key response "ok" <> JBool true ->
      outcome (create_db db c) = inl (error_of database_not_creatable))
  /\ (is_object response = true -> is_member "error" response = false ->
      at_key response "ok" = JBool true ->
      outcome (create_db db c) = inr (mk_database db))
  /\ (forall message,
      response = JObject [("error", JString "file_exists");
                          ("reason", JString message)] ->
      outcome (create_db db c)
      = inl (mk_error database_not_creatable message))
  /\ (response = JObject [("ok", JBool true)] ->
      outcome (create_db db c) = inr (mk_database db)).
Proof.
  intros Hx. rewrite (create_db_run _ _ _ _ Hx). cbv zeta.
  repeat apply conj.
  - now intros ->.
  - now intros -> ->.
  - intros -> -> Hok. simpl.
    destruct (get_bool (at_key response "ok")) eqn:Hb; [|reflexivity].
    now apply get_bool_true in Hb.
  - now intros -> -> ->.
  - now intros message ->.
  - now intros ->.
Qed.

(** C2: [ensure_db_is_deleted] sends the DELETE of [remove_db] and returns
    normally when [remove_db] returns or throws [content_not_found] or
    [database_not_deletable]; an error of any other kind comes out as it
    was thrown. *)
Theorem ensure_db_is_deleted_tolerates (db : string) c c' (r : error + unit) :
  remove_db db c = (c', r) ->
  (exists reply,
     journal c' = journal c ++ [Exchanged (delete_request db) reply])
  /\ (r = inr tt -> ensure_db_is_deleted db c = (c', inr tt))
  /\ (forall e, r = inl e ->
      type e = content_not_found \/ type e = database_not_deletable ->
      ensure_db_is_deleted db c = (c', inr tt))
  /\ (forall e, r = inl e ->
      type e <> content_not_found -> type e <> database_not_deletable ->
      ensure_db_is_deleted db c = (c', inl e)).
Proof.
  intros Hrun. split; [|split; [|split]].
  - destruct (exchange (auth c) (usr c) (delete_request db) (wire c))
      as [w reply] eqn:Hx.
    rewrite (remove_db_run _ _ _ _ Hx) in Hrun.
    injection Hrun as <- _. now exists reply.
  - intros ->. unfold ensure_db_is_deleted, try_catch. now rewrite Hrun.
  - intros e -> Hkind. unfold ensure_db_is_deleted, try_catch, ret.
    rewrite Hrun.
    destruct Hkind as [-> | ->]; reflexivity.
  - intros e -> Hnf Hnd. unfold ensure_db_is_deleted, try_catch, throw.
    rewrite Hrun.
    apply error_type_eqb_neq in Hnf, Hnd. now rewrite Hnf, Hnd.
Qed.

Lemma requests_with_app (m : string) (j j' : list event) :
  requests_with m (j ++ j') = requests_with m j ++ requests_with m j'.
Proof.
  induction j as [|e j IH]; simpl; [reflexivity|].
  destruct (request_of e) as [q|]; [|exact IH].
  destruct (String.eqb (method q) m); [|exact IH]. simpl. now rewrite IH.
Qed.

Lemma get_db_sends_no_put (db : string) c :
  requests_with "PUT" (journal (final (get_db db c)))
  = requests_with "PUT" (journal c).
Proof.
  destruct (exchange_raw (auth c) (usr c) (head_request db) (wire c))
    as [w reply] eqn:Hx.
  rewrite (get_db_run _ _ _ _ Hx). cbv zeta.
  destruct reply; simpl; rewrite ?requests_with_app; simpl;
    now rewrite ?app_nil_r.
Qed.

Lemma create_db_sends_one_put (db : string) c :
  requests_with "PUT" (journal (final (create_db db c)))
  = requests_with "PUT" (journal c) ++ [put_request db].
Proof.
  destruct (exchange (auth c) (usr c) (put_request db) (wire c))
    as [w reply] eqn:Hx.
  rewrite (create_db_run _ _ _ _ Hx). cbv zeta.
  destruct reply as [e|response]; simpl.
  - now rewrite requests_with_app.
  - destruct (negb (is_object response));
      [|destruct (is_member "error" response);
        [|destruct (negb (get_bool (at_key response "ok")))]];
      simpl; rewrite ?requests_with_app; simpl; now rewrite ?app_nil_r.
Qed.

(** C3: [ensure_db_exists] first runs [get_db]; it goes on to [create_db]
    exactly when [get_db] threw [content_not_found]; an error of another
    kind comes out as it was thrown, and then no PUT has been sent. *)
Theorem ensure_db_exists_creates_only_when_missing
        (db : string) c c' (r : error + database) :
  get_db db c = (c', r) ->
  (forall d, r = inr d -> ensure_db_exists db c = (c', inr d))
  /\ (forall e, r = inl e -> type e = content_not_found ->
      ensure_db_exists db c = create_db db c')
  /\ (forall e, r = inl e -> type e <> content_not_found ->
      ensure_db_exists db c = (c', inl e))
  /\ ((exists e, r = inl e /\ type e = content_not_found) ->
      requests_with "PUT" (journal (final (ensure_db_exists db c)))
      = requests_with "PUT" (journal c) ++ [put_request db])
  /\ (~ (exists e, r = inl e /\ type e = content_not_found) ->
      requests_with "PUT" (journal (final (ensure_db_exists db c)))
      = requests_with "PUT" (journal c)).
Proof.
  intros Hrun.
  assert (Hput : requests_with "PUT" (journal c')
                 = requests_with "PUT" (journal c)).
  { rewrite <- (get_db_sends_no_put db c). now rewrite Hrun. }
  assert (Hfound : forall d, r = inr d ->
            ensure_db_exists db c = (c', inr d)).
  { intros d ->. unfold ensure_db_exists, try_catch. now rewrite Hrun. }
  assert (Hmissing : forall e, r = inl e -> type e = content_not_found ->
            ensure_db_exists db c = create_db db c').
  { intros e -> Hkind. unfold ensure_db_exists, try_catch.
    rewrite Hrun, Hkind. reflexivity. }
  assert (Hother : forall e, r = inl e -> type e <> content_not_found ->
            ensure_db_exists db c = (c', inl e)).
  { intros e -> Hkind. unfold ensure_db_exists, try_catch, throw.
    rewrite Hrun. apply error_type_eqb_neq in Hkind. now rewrite Hkind. }
  repeat apply conj; try assumption.
  - intros (e & He & Hkind). rewrite (Hmissing e He Hkind).
    now rewrite create_db_sends_one_put, Hput.
  - intros Hnot. destruct r as [e|d].
    + rewrite (Hother e eq_refl); [exact Hput|].
      intros Hkind. apply Hnot. now exists e.
    + now rewrite (Hfound d eq_refl).
Qed.


(** ** Where [database] objects are constructed *)

Lemma builds_nothing_ret {A} (a : A) : builds_nothing (@ret W A a).
Proof. intros c. exists []. now rewrite app_nil_r. Qed.

Lemma builds_nothing_throw {A} (e : error) : builds_nothing (@throw W A e).
Proof. intros c. exists []. now rewrite app_nil_r. Qed.

Lemma builds_nothing_gets {A} (field : connection W -> A) :
  builds_nothing (gets field).
Proof. intros c. exists []. now rewrite app_nil_r. Qed.

Lemma builds_nothing_set_auth_type (t : auth_type) :
  builds_nothing (@set_auth_type W t).
Proof. intros c. exists []. simpl. now rewrite app_nil_r. Qed.

Lemma builds_nothing_set_couchdb_info (version : string) (major : Z) :
  builds_nothing (@set_couchdb_info W version major).
Proof. intros c. exists []. simpl. now rewrite app_nil_r. Qed.

Lemma builds_nothing_get_data (p m b : string) (root : bool) :
  builds_nothing (get_data p m b root).
Proof.
  intros c. unfold get_data.
  destruct (exchange _ _ _ _) as [w r]. now eexists [_].
Qed.

Lemma builds_nothing_get_raw_data (p m : string) :
  builds_nothing (get_raw_data p m).
Proof.
  intros c. unfold get_raw_data.
  destruct (exchange_raw _ _ _ _) as [w r]. now eexists [_].
Qed.

Lemma builds_nothing_cluster_begin (cl : cluster_connection) :
  builds_nothing (cluster_begin cl).
Proof.
  intros c. unfold cluster_begin.
  destruct (cluster_nodes _ _ _ _) as [w r]. exists []. simpl.
  now rewrite app_nil_r.
Qed.

Lemma builds_nothing_bind {A B} (m : M W A) (k : A -> M W B) :
  builds_nothing m -> (forall a, builds_nothing (k a)) ->
  builds_nothing (bind m k).
Proof.
  intros Hm Hk c. unfold bind.
  destruct (Hm c) as (fresh & Hj & Hq).
  destruct (m c) as [c1 [e|a]]; simpl in Hj.
  - now exists fresh.
  - destruct (Hk a c1) as (fresh' & Hj' & Hq').
    exists (fresh ++ fresh'). rewrite Hj', Hj, app_assoc. split; [reflexivity|].
    rewrite forallb_app. now rewrite Hq, Hq'.
Qed.

Lemma builds_nothing_try_catch {A} (m : M W A) (h : error -> M W A) :
  builds_nothing m -> (forall e, builds_nothing (h e)) ->
  builds_nothing (try_catch m h).
Proof.
  intros Hm Hh c. unfold try_catch.
  destruct (Hm c) as (fresh & Hj & Hq).
  destruct (m c) as [c1 [e|a]]; simpl in Hj.
  - destruct (Hh e c1) as (fresh' & Hj' & Hq').
    exists (fresh ++ fresh'). rewrite Hj', Hj, app_assoc. split; [reflexivity|].
    rewrite forallb_app. now rewrite Hq, Hq'.
  - now exists fresh.
Qed.

Lemma builds_nothing_if {A} (b : bool) (m m' : M W A) :
  builds_nothing m -> builds_nothing m' ->
  builds_nothing (if b then m else m').
Proof. now destruct b. Qed.

Ltac quiet :=
  repeat match goal with
         | |- forall _, _ => intro
         | |- builds_nothing (ret _) => apply builds_nothing_ret
         | |- builds_nothing (throw _) => apply builds_nothing_throw
         | |- builds_nothing (gets _) => apply builds_nothing_gets
         | |- builds_nothing (get_data _ _ _ _) =>
             apply builds_nothing_get_data
         | |- builds_nothing (get_raw_data _ _) =>
             apply builds_nothing_get_raw_data
         | |- builds_nothing (set_auth_type _) =>
             apply builds_nothing_set_auth_type
         | |- builds_nothing (set_couchdb_info _ _) =>
             apply builds_nothing_set_couchdb_info
         | |- builds_nothing (cluster_begin _) =>
             apply builds_nothing_cluster_begin
         | |- builds_nothing (bind _ _) => apply builds_nothing_bind
         | |- builds_nothing (try_catch _ _) => apply builds_nothing_try_catch
         | |- builds_nothing (if _ then _ else _) => apply builds_nothing_if
         | |- builds_nothing (match ?x with _ => _ end) => destruct x
         end.

Lemma quiet_run_has_evidence (fresh past : list event) :
  forallb (fun e => negb (is_built e)) fresh = true ->
  built_after_evidence past fresh = true.
Proof.
  revert past. induction fresh as [|e fresh IH]; intros past; simpl;
    [reflexivity|].
  intros [He Hq]%andb_prop. destruct e; try discriminate; now apply IH.
Qed.

Lemma builds_nothing_on_evidence {A} (op : M W A) :
  builds_nothing op -> builds_on_evidence op.
Proof.
  intros Hq c. destruct (Hq c) as (fresh & Hj & Hnone).
  exists fresh. split; [exact Hj|]. now apply quiet_run_has_evidence.
Qed.

Lemma request_eqb_refl (q : request) : request_eqb q q = true.
Proof.
  unfold request_eqb.
  now rewrite !String.eqb_refl, Bool.eqb_reflx.
Qed.

Lemma evidence_mono (past past' fresh : list event) :
  (forall name, existsb (establishes name) past = true ->
                existsb (establishes name) past' = true) ->
  built_after_evidence past fresh = true ->
  built_after_evidence past' fresh = true.
Proof.
  revert past past'. induction fresh as [|e fresh IH]; intros past past' Hsub;
    simpl; [reflexivity|].
  assert (Hnext : forall name,
            existsb (establishes name) (past ++ [e]) = true ->
            existsb (establishes name) (past' ++ [e]) = true).
  { intros name. rewrite !existsb_app, !orb_true_iff.
    intros [Hp | He]; [left; now apply Hsub | now right]. }
  destruct e as [q r|q r|name]; try (now apply IH).
  intros [Hname Hrest]%andb_prop.
  rewrite (Hsub _ Hname). simpl. now apply (IH (past ++ [Built name])).
Qed.

Lemma get_db_builds_on_evidence (db : string) :
  builds_on_evidence (get_db db).
Proof.
  intros c.
  destruct (exchange_raw (auth c) (usr c) (head_request db) (wire c))
    as [w reply] eqn:Hx.
  rewrite (get_db_run _ _ _ _ Hx). cbv zeta.
  destruct reply as [e|raw].
  - now eexists [_].
  - exists [ExchangedRaw (head_request db) (inr raw); Built db].
    split; [simpl; now rewrite <- app_assoc|].
    cbn [built_after_evidence existsb app establishes].
    now rewrite request_eqb_refl.
Qed.

Lemma create_db_builds_on_evidence (db : string) :
  builds_on_evidence (create_db db).
Proof.
  intros c.
  destruct (exchange (auth c) (usr c) (put_request db) (wire c))
    as [w reply] eqn:Hx.
  rewrite (create_db_run _ _ _ _ Hx). cbv zeta.
  destruct reply as [e|response]; [now eexists [_]|].
  destruct (is_object response) eqn:Hobj; [|now eexists [_]].
  destruct (is_member "error" response) eqn:Herr; [now eexists [_]|].
  destruct (get_bool (at_key response "ok")) eqn:Hok; [|now eexists [_]].
  exists [Exchanged (put_request db) (inr response); Built db].
  split; [simpl; now rewrite <- app_assoc|].
  cbn [built_after_evidence existsb app establishes].
  unfold created_ok. now rewrite request_eqb_refl, Hobj, Herr, Hok.
Qed.

Lemma ensure_db_exists_builds_on_evidence (db : string) :
  builds_on_evidence (ensure_db_exists db).
Proof.
  intros c. unfold ensure_db_exists, try_catch, throw.
  destruct (exchange_raw (auth c) (usr c) (head_request db) (wire c))
    as [w reply] eqn:Hx.
  pose proof (get_db_builds_on_evidence db c) as Hget.
  rewrite (get_db_run _ _ _ _ Hx) in Hget |- *. cbv zeta in Hget |- *.
  destruct reply as [e|raw]; [|exact Hget].
  destruct (negb (error_type_eqb (type e) content_not_found)); [exact Hget|].
  destruct (create_db_builds_on_evidence db
              (record (ExchangedRaw (head_request db) (inl e))
                      (with_wire w c)))
    as (fresh & Hj & Hev).
  exists (ExchangedRaw (head_request db) (inl e) :: fresh).
  rewrite Hj. simpl. rewrite <- app_assoc. split; [reflexivity|].
  now apply (evidence_mono []).
Qed.

Lemma build_each_on_listing (keep : string -> bool) (items : list json) :
  forall (dbs : list database) c, exists fresh,
    journal (final (build_each keep items dbs c)) = journal c ++ fresh
    /\ forall past,
         (forall item, In item items ->
                       existsb (establishes (get_string item)) past = true) ->
         built_after_evidence past fresh = true.
Proof.
  induction items as [|item items IH]; intros dbs c; simpl.
  - exists []. now rewrite app_nil_r.
  - destruct (keep (get_string item)).
    + unfold bind, new_database.
      destruct (IH (dbs ++ [mk_database (get_string item)])
                   (record (Built (get_string item)) c))
        as (fresh & Hj & Hev).
      exists (Built (get_string item) :: fresh). rewrite Hj. simpl.
      rewrite <- app_assoc. split; [reflexivity|].
      intros past Hpast. rewrite (Hpast item (or_introl eq_refl)). simpl.
      apply Hev. intros item' Hin. rewrite existsb_app.
      now rewrite (Hpast item' (or_intror Hin)).
    + destruct (IH dbs c) as (fresh & Hj & Hev).
      exists fresh. split; [exact Hj|].
      intros past Hpast. apply Hev. intros item' Hin.
      apply Hpast. now right.
Qed.

Lemma listing_establishes (items : list json) (item : json) :
  forallb is_string items = true ->
  In item items ->
  existsb (establishes (get_string item))
          [Exchanged all_dbs_request (inr (JArray items))] = true.
Proof.
  intros Hstrings Hin. cbn [existsb establishes]. rewrite orb_false_r.
  apply orb_true_iff. right.
  rewrite request_eqb_refl. cbn [andb].
  apply existsb_exists. exists item. split; [exact Hin|].
  rewrite forallb_forall in Hstrings. specialize (Hstrings item Hin).
  destruct item; try discriminate. cbn. apply String.eqb_refl.
Qed.

Lemma listing_builds_on_listed_names (keep : string -> bool) :
  builds_on_listed_names
    (bind (get_data "/_all_dbs" "GET" "" false)
          (fun response =>
             if negb (is_array response)
             then throw (error_of database_unavailable)
             else build_each keep (get_array response) [])).
Proof.
  intros c Hstrings. unfold lists_strings in Hstrings.
  unfold bind, get_data. fold all_dbs_request.
  destruct (exchange (auth c) (usr c) all_dbs_request (wire c))
    as [w reply].
  destruct reply as [e|response]; [now eexists [_]|].
  destruct response as [| | | | |items|]; try (now eexists [_]).
  cbn [is_array negb get_array].
  destruct (build_each_on_listing keep items []
              (record (Exchanged all_dbs_request (inr (JArray items)))
                      (with_wire w c)))
    as (fresh & Hj & Hev).
  exists (Exchanged all_dbs_request (inr (JArray items)) :: fresh).
  rewrite Hj. simpl. rewrite <- app_assoc. split; [reflexivity|].
  apply Hev. intros item Hin.
  apply listing_establishes; [exact (Hstrings w items eq_refl) | exact Hin].
Qed.

Lemma db_exists_builds_first (db : string) c :
  exists rest, journal (final (db_exists db c)) = journal c ++ Built db :: rest.
Proof.
  unfold db_exists, bind, new_database, database_exists, try_catch.
  cbn [db_name].
  destruct (builds_nothing_bind
              (get_raw_data ("/" ++ url_encode db) "HEAD")
              (fun _ => ret true)
              (builds_nothing_get_raw_data _ _)
              (fun _ => builds_nothing_ret true)
              (record (Built db) c))
    as (fresh & Hj & _).
  destruct (bind (get_raw_data ("/" ++ url_encode db) "HEAD")
                 (fun _ => ret true) (record (Built db) c))
    as [c1 [e|b]]; simpl in Hj.
  - exists fresh.
    destruct (error_type_eqb (type e) content_not_found); simpl;
      now rewrite Hj, <- app_assoc.
  - exists fresh. simpl. now rewrite Hj, <- app_assoc.
Qed.

(** C9, as the code has it: [get_db], [create_db], [ensure_db_exists],
    [list_dbs] and [list_all_dbs] construct a [database] only after an
    exchange of their own has shown that the server has a database of that
    name (a HEAD that succeeded, a PUT that created it, a listing of strings
    that has the name); the other operations construct none; [db_exists]
    constructs the [database] first and only then asks it whether the
    database exists. *)
Theorem databases_built_on_evidence_except_in_db_exists
        (db name pass : string) (roles : json) (u : user) (count port : N) :
  (builds_on_evidence (get_db db)
   /\ builds_on_evidence (create_db db)
   /\ builds_on_evidence (ensure_db_exists db)
   /\ builds_on_listed_names list_dbs
   /\ builds_on_listed_names list_all_dbs)
  /\ (builds_nothing (remove_db db)
      /\ builds_nothing (ensure_db_is_deleted db)
      /\ builds_nothing list_db_names
      /\ builds_nothing list_all_db_names
      /\ builds_nothing list_user_names
      /\ builds_nothing login
      /\ builds_nothing logout
      /\ builds_nothing get_login_info
      /\ builds_nothing get_couchdb_version
      /\ builds_nothing get_major_version
      /\ builds_nothing get_supports_clusters
      /\ builds_nothing (upgrade_to_cluster_connection port)
      /\ builds_nothing (upgrade_to_node_connection port))
  /\ (builds_nothing (get_uuids count)
      /\ builds_nothing get_active_tasks
      /\ builds_nothing (create_user name pass roles)
      /\ builds_nothing (create_user_of u roles)
      /\ builds_nothing (get_user_info name)
      /\ builds_nothing (delete_user name))
  /\ (forall c, exists rest,
        journal (final (db_exists db c)) = journal c ++ Built db :: rest).
Proof.
  split; [|split; [|split]].
  - repeat apply conj.
    + apply get_db_builds_on_evidence.
    + apply create_db_builds_on_evidence.
    + apply ensure_db_exists_builds_on_evidence.
    + apply listing_builds_on_listed_names.
    + apply listing_builds_on_listed_names.
  - repeat apply conj.
    + unfold remove_db. quiet.
    + unfold ensure_db_is_deleted, remove_db. quiet.
    + unfold list_db_names. quiet.
    + unfold list_all_db_names. quiet.
    + unfold list_user_names. quiet.
    + unfold login, logout, get_auth_type, get_user. quiet.
    + unfold logout, get_auth_type. quiet.
    + unfold get_login_info, get_auth_type. quiet.
    + unfold get_couchdb_version, get_couchdb_info. quiet.
    + unfold get_major_version, get_couchdb_info. quiet.
    + unfold get_supports_clusters, get_major_version, get_couchdb_info.
      quiet.
    + unfold upgrade_to_cluster_connection, get_supports_clusters,
        get_major_version, get_couchdb_info. quiet.
    + unfold upgrade_to_node_connection, get_supports_clusters,
        get_major_version, get_couchdb_info. quiet.
  - repeat apply conj.
    + unfold get_uuids. quiet.
    + unfold get_active_tasks. quiet.
    + unfold create_user. quiet.
    + unfold create_user_of, create_user. quiet.
    + unfold get_user_info. quiet.
    + unfold delete_user. quiet.
  - apply db_exists_builds_first.
Qed.


(** ** Authentication *)

Ltac destruct_exchange :=
  match goal with
  | |- context [exchange ?t ?u ?q ?w] =>
      let H := fresh "Hx" in
      destruct (exchange t u q w) as [? [?|?]] eqn:H; cbn
  end.

(** Where [login] leaves the authentication type: at its value on entry,
    except when the connection was on [auth_cookie] and the POST itself
    threw; then it stays on the [auth_basic] set before the POST. *)
Lemma login_final_auth c :
  auth (final (login c)) = auth c
  \/ (auth c = auth_cookie
      /\ auth (final (login c)) = auth_basic
      /\ exists w e,
           exchange auth_basic (usr c) (session_post (usr c)) (wire c)
           = (w, inl e)
           /\ outcome (login c) = inl e).
Proof.
  destruct c as [t u w0 version major j].
  unfold login, logout, bind, try_catch, get_auth_type, get_user, gets,
    set_auth_type, get_data, throw, ret, final, outcome,
    session_post, session_delete.
  destruct t; cbn.
  - now left.
  - destruct_exchange; [now left|].
    destruct_exchange; now left.
  - destruct_exchange; [|now left].
    right. split; [reflexivity|]. split; [reflexivity|]. now eexists _, _.
Qed.

(** On the path where [login] returns, the authentication type is back at
    its value on entry. *)
Lemma login_restores_on_return c :
  outcome (login c) = inr tt -> auth (final (login c)) = auth c.
Proof.
  intros Hret. destruct (login_final_auth c)
    as [Hsame | (_ & _ & w & e & _ & Hthrow)]; [exact Hsame|].
  rewrite Hthrow in Hret. discriminate.
Qed.

(** When the connection is on [auth_basic], the POST succeeds and the
    [logout] that follows throws, the authentication type is back on
    [auth_basic] when the error leaves [login]. *)
Lemma login_restores_when_logout_throws c w (response : json) w' (e : error) :
  auth c = auth_basic ->
  exchange auth_basic (usr c) (session_post (usr c)) (wire c)
  = (w, inr response) ->
  exchange auth_cookie (usr c) session_delete w = (w', inl e) ->
  outcome (login c) = inl e /\ auth (final (login c)) = auth_basic.
Proof.
  destruct c as [t u w0 version major j].
  cbn [auth usr wire]. intros -> Hpost Hdelete.
  unfold login, logout, bind, try_catch, get_auth_type, get_user, gets,
    set_auth_type, get_data, throw, ret, final, outcome,
    session_post, session_delete in *.
  cbn. rewrite Hpost. cbn. rewrite Hdelete. now cbn.
Qed.

End Properties.

(* ================================================================== *)
(** * The properties on the scripted server *)

Local Open Scope Z_scope.

(** C1, at a login that the server rejects: a connection on [auth_cookie]
    whose POST to [/_session] throws comes out of [login] on [auth_basic],
    the value set before the POST, with the error of the POST; the
    authentication type it had on entry is not put back. *)
Theorem login_rejected_leaves_cookie_connection_on_basic :
  auth server_rejecting_login = auth_cookie
  /\ outcome (login server_rejecting_login) = inl unauthorized
  /\ auth (final (login server_rejecting_login)) = auth_basic
  /\ auth (final (login server_rejecting_login))
     <> auth server_rejecting_login.
Proof. repeat split. discriminate. Qed.

(** Deleting a database that is not there. *)
Lemma ensure_db_is_deleted_tolerates_witness :
  outcome (remove_db "alpha" server_without_db)
  = inl (error_of content_not_found)
  /\ ensure_db_is_deleted "alpha" server_without_db
     = (final (remove_db "alpha" server_without_db), inr tt).
Proof.
  split; [reflexivity|].
  pose proof (ensure_db_is_deleted_tolerates "alpha" server_without_db
                (final (remove_db "alpha" server_without_db))
                (inl (error_of content_not_found)) eq_refl)
    as (_ & _ & Htolerated & _).
  exact (Htolerated (error_of content_not_found) eq_refl
                    (or_introl eq_refl)).
Defined.

(** A database that is not there is created, with one PUT. *)
Lemma ensure_db_exists_creates_only_when_missing_witness :
  outcome (get_db "alpha" server_creating_db)
  = inl (error_of content_not_found)
  /\ ensure_db_exists "alpha" server_creating_db
     = create_db "alpha" (final (get_db "alpha" server_creating_db))
  /\ requests_with "PUT"
       (journal (final (ensure_db_exists "alpha" server_creating_db)))
     = [put_request "alpha"].
Proof.
  split; [reflexivity|].
  pose proof (ensure_db_exists_creates_only_when_missing
                "alpha" server_creating_db
                (final (get_db "alpha" server_creating_db))
                (inl (error_of content_not_found)) eq_refl)
    as (_ & Hmissing & _ & Hput & _).
  split.
  - exact (Hmissing (error_of content_not_found) eq_refl eq_refl).
  - exact (Hput (ex_intro _ (error_of content_not_found)
                          (conj eq_refl eq_refl))).
Defined.

(** On a [null] reply to the PUT, [create_db] throws [database_unavailable],
    not [bad_response]. *)
Lemma create_db_non_object_is_not_bad_response :
  is_object JNull = false
  /\ outcome (create_db "alpha" server_answering_null)
     = inl (error_of database_unavailable)
  /\ kind_of (outcome (create_db "alpha" server_answering_null))
     <> Some bad_response.
Proof. repeat split. discriminate. Qed.

(** Creating a database that exists already. *)
Lemma create_db_classifies_reply_witness :
  exchange (auth server_with_existing_db) (usr server_with_existing_db)
           (put_request "alpha") (wire server_with_existing_db)
  = ([], inr file_exists_reply)
  /\ outcome (create_db "alpha" server_with_existing_db)
     = inl (mk_error database_not_creatable
                     "The database could not be created.").
Proof.
  split; [reflexivity|].
  exact (proj1 (proj2
           (create_db_classifies_reply "alpha" server_with_existing_db
              [] file_exists_reply eq_refl))
           eq_refl eq_refl).
Defined.

(** A server that reports version 2.3.1. *)
Lemma major_version_is_leading_integer_witness :
  is_object (welcome "2.3.1") = true
  /\ outcome (get_major_version (server_of_version "2.3.1")) = inr 2.
Proof.
  split; [reflexivity|].
  exact (proj1 (major_version_is_leading_integer
                  (server_of_version "2.3.1") [] (welcome "2.3.1")
                  eq_refl eq_refl)).
Defined.

(** The listing [_replicator, shards/x, alpha, beta]. *)
Lemma list_db_names_filters_reserved_witness :
  exchange (auth server_listing) (usr server_listing) all_dbs_request
           (wire server_listing)
  = ([], inr sample_listing)
  /\ outcome (list_db_names server_listing) = inr ["alpha"; "beta"]%string.
Proof.
  split; [reflexivity|].
  exact (proj2 (proj2
           (list_db_names_filters_reserved server_listing []
              (inr sample_listing) eq_refl))
           eq_refl).
Defined.

(** Two rows, one user. *)
Lemma list_user_names_normalizes_witness :
  at_key (JObject [("total_rows", JInt 2); ("rows", JArray sample_rows)])
         "rows"
  = JArray sample_rows
  /\ outcome (list_user_names server_with_users) = inr ["alice"]%string.
Proof.
  split; [reflexivity|].
  exact (proj2 (proj2
           (list_user_names_normalizes server_with_users [] (inr _) eq_refl))
           _ eq_refl eq_refl eq_refl).
Defined.

(** A server of version 2.3.1 gives a cluster connection, a server of
    version 1.6.1 a node connection without a name. *)
Lemma cluster_upgrade_follows_major_version_witness :
  outcome (get_major_version (server_of_version "2.3.1")) = inr 2
  /\ upgrade_to_cluster_connection 5986 (server_of_version "2.3.1")
     = (final (get_major_version (server_of_version "2.3.1")),
        inr (Some (mk_cluster 5986)))
  /\ outcome (upgrade_to_node_connection 5986 (server_of_version "2.3.1"))
     = inr (Some (mk_node 5986 "couchdb@node1.example.com"))
  /\ outcome (upgrade_to_node_connection 5986 (server_of_version "1.6.1"))
     = inr (Some (mk_node 5986 "")).
Proof.
  pose proof (cluster_upgrade_follows_major_version 5986
                (server_of_version "2.3.1")
                (final (get_major_version (server_of_version "2.3.1")))
                (inr 2) eq_refl)
    as (_ & Hcluster & Hfirst & _).
  pose proof (cluster_upgrade_follows_major_version 5986
                (server_of_version "1.6.1")
                (final (get_major_version (server_of_version "1.6.1")))
                (inr 1) eq_refl)
    as (_ & _ & _ & Hsingle & _).
  split; [reflexivity|]. split; [|split].
  - exact (proj1 (Hcluster 2 eq_refl (Z.le_refl 2))).
  - exact (f_equal snd
             (Hfirst 2 eq_refl (Z.le_refl 2) []
                (mk_node 5986 "couchdb@node1.example.com")
                [mk_node 5986 "couchdb@node2.example.com"] eq_refl)).
  - exact (f_equal snd (proj2 (Hsingle 1 eq_refl eq_refl))).
Defined.

(** For a name the server does not have, [db_exists] answers [false], and a
    [database] of that name was constructed before the HEAD was sent. *)
Lemma db_exists_builds_without_evidence :
  outcome (db_exists "ghost" server_without_db) = inr false
  /\ journal (final (db_exists "ghost" server_without_db))
     = [Built "ghost";
        ExchangedRaw (head_request "ghost") (inl (error_of content_not_found))]
  /\ ~ builds_on_evidence (db_exists (W := script) "ghost").
Proof.
  split; [reflexivity|]. split; [reflexivity|].
  intros Hclaim. destruct (Hclaim server_without_db) as (fresh & Hj & Hev).
  cbn in Hj. subst fresh. discriminate Hev.
Qed.

(** The listing [_replicator, shards/x, alpha, beta], all strings. *)
Lemma databases_built_on_evidence_except_in_db_exists_witness :
  lists_strings server_listing
  /\ built_after_evidence [] (journal (final (list_all_dbs server_listing)))
     = true.
Proof.
  assert (Hstrings : lists_strings server_listing).
  { intros w items Hx. cbn in Hx. injection Hx as _ <-. reflexivity. }
  split; [exact Hstrings|].
  pose proof (databases_built_on_evidence_except_in_db_exists
                "alpha" "alice" "secret" JNull (mk_user "alice" "secret")
                10 5986)
    as ((_ & _ & _ & _ & Hlisting) & _).
  destruct (Hlisting server_listing Hstrings) as (fresh & Hj & Hev).
  cbn [journal server_listing connect app] in Hj.
  rewrite Hj. exact Hev.
Defined.



(* ================================================================== *)
(** * Further properties of the class *)

Local Open Scope list_scope.

Section Further.

Context {W : Type} {CM : Communication W}.

Implicit Types (c : connection W) (w : W).

(** ** Deleting and creating databases *)

Lemma requests_app (j j' : list event) :
  requests (j ++ j') = requests j ++ requests j'.
Proof.
  induction j as [|e j IH]; simpl; [reflexivity|].
  destruct (request_of e); simpl; now rewrite IH.
Qed.

(** X1: on a reply to the DELETE, [remove_db] returns exactly when the reply
    is an object without an ["error"] member whose ["ok"] is [true]; with an
    ["error"] member it throws [database_not_deletable] with the reply's
    ["reason"]; and whatever it throws on a reply is [database_not_deletable]. *)
Theorem remove_db_classifies_reply (db : string) c w (response : json) :
  exchange (auth c) (usr c) (delete_request db) (wire c) = (w, inr response) ->
  (outcome (remove_db db c) = inr tt
   <-> is_object response = true /\ is_member "error" response = false
       /\ at_key response "ok" = JBool true)
  /\ (is_member "error" response = true ->
      outcome (remove_db db c)
      = inl (mk_error database_not_deletable
                      (get_string (at_key response "reason"))))
  /\ (forall e, outcome (remove_db db c) = inl e ->
                type e = database_not_deletable).
Proof.
  intros Hx. rewrite (remove_db_run _ _ _ _ Hx). unfold outcome. cbn [snd].
  destruct (is_object response) eqn:Hobj; cbn [negb].
  - destruct (is_member "error" response) eqn:Herr.
    + split; [|split].
      * split; [discriminate | now intros (_ & Hno & _)].
      * reflexivity.
      * now intros e [= <-].
    + destruct (get_bool (at_key response "ok")) eqn:Hok; cbn [negb].
      * apply get_bool_true in Hok.
        split; [|split]; [now split | discriminate | discriminate].
      * split; [|split].
        -- split; [discriminate|]. intros (_ & _ & Htrue).
           apply get_bool_true in Htrue. congruence.
        -- discriminate.
        -- now intros e [= <-].
  - split; [|split].
    + split; [discriminate | now intros (Hno & _)].
    + intros Herr. destruct response; discriminate.
    + now intros e [= <-].
Qed.

(** X2: [ensure_db_is_deleted] returns normally on every reply the server
    gives to the DELETE, refusals included; it throws only what the
    transport threw, and never [content_not_found] or
    [database_not_deletable]. *)
Theorem ensure_db_is_deleted_swallows_refusals
        (db : string) c w (reply : error + json) :
  exchange (auth c) (usr c) (delete_request db) (wire c) = (w, reply) ->
  (forall response, reply = inr response ->
     outcome (ensure_db_is_deleted db c) = inr tt)
  /\ (forall e, outcome (ensure_db_is_deleted db c) = inl e ->
      reply = inl e
      /\ type e <> content_not_found /\ type e <> database_not_deletable).
Proof.
  intros Hx. unfold ensure_db_is_deleted, try_catch, outcome.
  rewrite (remove_db_run _ _ _ _ Hx).
  destruct reply as [e0|response].
  - split; [discriminate|]. intros e.
    destruct (error_type_eqb (type e0) content_not_found) eqn:Hnf;
      [discriminate|].
    destruct (error_type_eqb (type e0) database_not_deletable) eqn:Hnd;
      [discriminate|].
    cbn. intros [= <-]. apply error_type_eqb_neq in Hnf, Hnd. now repeat split.
  - assert (Hret : snd
      (let (c', s) :=
         (record (Exchanged (delete_request db) (inr response))
                 (with_wire w c),
          if negb (is_object response)
          then inl (error_of database_not_deletable)
          else if is_member "error" response
          then inl (mk_error database_not_deletable
                             (get_string (at_key response "reason")))
          else if negb (get_bool (at_key response "ok"))
          then inl (error_of database_not_deletable)
          else inr tt) in
       match s with
       | inl e =>
           (if negb (error_type_eqb (type e) content_not_found)
               && negb (error_type_eqb (type e) database_not_deletable)
            then throw e else ret tt) c'
       | inr a => (c', inr a)
       end) = inr tt).
    { destruct (negb (is_object response)); [reflexivity|].
      destruct (is_member "error" response); [reflexivity|].
      now destruct (negb (get_bool (at_key response "ok"))). }
    split; [intros ? _; exact Hret|].
    intros e He. rewrite Hret in He. discriminate.
Qed.

(** X3: on a reply to the PUT, [create_db] returns exactly when the reply
    is an object without an ["error"] member whose ["ok"] is [true], and what
    it returns is the [database] of the name asked for; what it throws on a
    reply is [database_unavailable] or [database_not_creatable]; and a
    [database] is constructed, after the PUT, exactly when it returns. *)
Theorem create_db_returns_only_on_ok (db : string) c w (response : json) :
  exchange (auth c) (usr c) (put_request db) (wire c) = (w, inr response) ->
  (outcome (create_db db c) = inr (mk_database db)
   <-> created_ok response = true)
  /\ (forall d, outcome (create_db db c) = inr d -> d = mk_database db)
  /\ (forall e, outcome (create_db db c) = inl e ->
      type e = database_unavailable \/ type e = database_not_creatable)
  /\ (journal (final (create_db db c))
      = journal c ++ Exchanged (put_request db) (inr response)
                     :: match outcome (create_db db c) with
                        | inr _ => [Built db]
                        | inl _ => []
                        end).
Proof.
  intros Hx. rewrite (create_db_run _ _ _ _ Hx). unfold created_ok.
  cbv zeta. unfold outcome, final.
  destruct (is_object response); cbn [negb andb].
  - destruct (is_member "error" response); cbn [negb andb].
    + split; [split; discriminate|]. split; [discriminate|].
      split; [intros e [= <-]; now right | reflexivity].
    + destruct (get_bool (at_key response "ok")); cbn [negb].
      * split; [now split|]. split; [now intros d [= <-]|].
        split; [discriminate|]. cbn. now rewrite <- app_assoc.
      * split; [split; discriminate|]. split; [discriminate|].
        split; [intros e [= <-]; now right | reflexivity].
  - split; [split; discriminate|]. split; [discriminate|].
    split; [intros e [= <-]; now left | reflexivity].
Qed.

Lemma get_db_requests (db : string) c :
  requests (journal (final (get_db db c)))
  = requests (journal c) ++ [head_request db].
Proof.
  destruct (exchange_raw (auth c) (usr c) (head_request db) (wire c))
    as [w reply] eqn:Hx.
  rewrite (get_db_run _ _ _ _ Hx). cbv zeta.
  destruct reply; cbn; rewrite ?requests_app; cbn; rewrite ?requests_app;
    cbn; now rewrite ?app_nil_r.
Qed.

Lemma create_db_requests (db : string) c :
  requests (journal (final (create_db db c)))
  = requests (journal c) ++ [put_request db].
Proof.
  destruct (exchange (auth c) (usr c) (put_request db) (wire c))
    as [w reply] eqn:Hx.
  rewrite (create_db_run _ _ _ _ Hx). cbv zeta.
  destruct reply as [e|response]; cbn.
  - now rewrite requests_app.
  - destruct (negb (is_object response));
      [|destruct (is_member "error" response);
        [|destruct (negb (get_bool (at_key response "ok")))]];
      cbn; rewrite ?requests_app; cbn; rewrite ?requests_app; cbn;
      now rewrite ?app_nil_r.
Qed.

(** X4: [ensure_db_exists] does not retry: it sends the HEAD, and after it
    at most the one PUT; the [database] it returns has the name asked for. *)
Theorem ensure_db_exists_never_retries (db : string) c :
  (requests (journal (final (ensure_db_exists db c)))
   = requests (journal c) ++ [head_request db]
   \/ requests (journal (final (ensure_db_exists db c)))
      = requests (journal c) ++ [head_request db; put_request db])
  /\ match outcome (ensure_db_exists db c) with
     | inr d => db_name d = db
     | inl _ => True
     end.
Proof.
  pose proof (get_db_requests db c) as Hhead.
  unfold ensure_db_exists, try_catch, throw.
  destruct (exchange_raw (auth c) (usr c) (head_request db) (wire c))
    as [w reply] eqn:Hx.
  rewrite (get_db_run _ _ _ _ Hx) in Hhead |- *. cbv zeta in Hhead |- *.
  destruct reply as [e|raw]; unfold final at 1 in Hhead; cbn [fst] in Hhead.
  - destruct (negb (error_type_eqb (type e) content_not_found)).
    + split; [now left | exact I].
    + split.
      * right. rewrite create_db_requests, Hhead. now rewrite <- app_assoc.
      * destruct (exchange (auth (record (ExchangedRaw (head_request db)
                                            (inl e)) (with_wire w c)))
                    (usr (record (ExchangedRaw (head_request db) (inl e))
                                 (with_wire w c)))
                    (put_request db)
                    (wire (record (ExchangedRaw (head_request db) (inl e))
                                  (with_wire w c))))
          as [w' reply'] eqn:Hput.
        rewrite (create_db_run _ _ _ _ Hput). cbv zeta. unfold outcome.
        destruct reply' as [e'|response]; [exact I|]. cbn [snd].
        destruct (negb (is_object response)); [exact I|].
        destruct (is_member "error" response); [exact I|].
        destruct (negb (get_bool (at_key response "ok"))); [exact I|].
        reflexivity.
  - split; [now left | reflexivity].
Qed.

(** ** Sessions *)

Ltac case_exchange :=
  match goal with
  | |- context [exchange ?t ?u ?q ?w] =>
      destruct (exchange t u q w) as [? [?|?]]; cbn
  end.

(** X5: what [login] sends.  Without authentication it sends nothing and
    changes nothing.  On [auth_cookie] it sends the one POST, made under
    [auth_basic], and keeps the session it opened.  On [auth_basic] it sends
    the POST and, when that succeeded, the DELETE that closes the session
    again. *)
Theorem login_requests c w (r : error + json) :
  exchange auth_basic (usr c) (session_post (usr c)) (wire c) = (w, r) ->
  (auth c = auth_none -> login c = (c, inr tt))
  /\ (auth c = auth_cookie ->
      requests (journal (final (login c)))
      = requests (journal c) ++ [session_post (usr c)]
      /\ outcome (login c)
         = match r with inl e => inl e | inr _ => inr tt end)
  /\ (auth c = auth_basic -> forall e, r = inl e ->
      requests (journal (final (login c)))
      = requests (journal c) ++ [session_post (usr c)]
      /\ outcome (login c) = inl e)
  /\ (auth c = auth_basic -> forall response, r = inr response ->
      requests (journal (final (login c)))
      = requests (journal c) ++ [session_post (usr c); session_delete]).
Proof.
  destruct c as [t u w0 version major j].
  cbn [auth usr wire journal]. intros Hx.
  unfold login, logout, bind, try_catch, get_auth_type, get_user, gets,
    set_auth_type, get_data, throw, ret, final, outcome,
    session_post, session_delete in *.
  split; [|split; [|split]].
  - now intros ->.
  - intros ->. cbn. rewrite Hx. destruct r as [e|response]; cbn;
      now rewrite requests_app.
  - intros -> e ->. cbn. rewrite Hx. cbn. now rewrite requests_app.
  - intros -> response ->. cbn. rewrite Hx. cbn.
    case_exchange; rewrite !requests_app; cbn; now rewrite <- app_assoc.
Qed.

(** X6: outside [auth_cookie], [logout] and [get_login_info] send nothing:
    the connection stays as it is and the answers are "done" and [null].  On
    [auth_cookie], [logout] sends the DELETE and does not look at the reply:
    whatever the server answers, it returns. *)
Theorem session_calls_need_cookie c w (r : error + json) :
  exchange auth_cookie (usr c) session_delete (wire c) = (w, r) ->
  (auth c <> auth_cookie ->
   logout c = (c, inr tt) /\ get_login_info c = (c, inr JNull))
  /\ (auth c = auth_cookie ->
      requests (journal (final (logout c)))
      = requests (journal c) ++ [session_delete]
      /\ outcome (logout c)
         = match r with inl e => inl e | inr _ => inr tt end).
Proof.
  destruct c as [t u w0 version major j].
  cbn [auth usr wire journal]. intros Hx.
  unfold logout, get_login_info, bind, get_auth_type, gets, get_data, ret,
    final, outcome, session_delete in *.
  split.
  - intros Hmode. destruct t; [now split | now split | contradiction].
  - intros ->. cbn. rewrite Hx.
    destruct r; cbn; now rewrite requests_app.
Qed.

(** ** Identifiers, tasks and users *)

(** X7: [get_uuids] returns the identifiers the server sent, in order,
    however many were asked for; it throws [bad_response] unless the reply is
    an object whose ["uuids"] member is an array; it sends one GET, with the
    count in the query. *)
Theorem get_uuids_returns_what_was_sent
        (count : N) c w (reply : error + json) :
  exchange (auth c) (usr c) (uuids_request count) (wire c) = (w, reply) ->
  (forall response items, reply = inr response ->
     is_object response = true -> at_key response "uuids" = JArray items ->
     outcome (get_uuids count c) = inr (map get_string items))
  /\ (forall response, reply = inr response ->
      is_object response = false
      \/ is_array (at_key response "uuids") = false ->
      outcome (get_uuids count c) = inl (error_of bad_response))
  /\ requests (journal (final (get_uuids count c)))
     = requests (journal c) ++ [uuids_request count].
Proof.
  intros Hx. unfold get_uuids, bind, get_data, outcome, final.
  fold (uuids_request count). rewrite Hx.
  split; [|split].
  - intros response items -> Hobj Hitems. cbn. rewrite Hobj, Hitems. cbn.
    f_equal.
    rewrite (fold_left_push _ (fun val => [get_string val]));
      [apply flat_map_singleton | reflexivity].
  - intros response -> Hbad. cbn.
    destruct (is_object response); cbn; [|reflexivity].
    destruct Hbad as [Hbad | ->]; [discriminate | reflexivity].
  - destruct reply as [e|response]; cbn; [now rewrite requests_app|].
    destruct (negb (is_object response)); cbn; [now rewrite requests_app|].
    destruct (negb (is_array (at_key response "uuids"))); cbn;
      now rewrite requests_app.
Qed.

(** X8: [get_active_tasks] hands back arrays only: what it returns is the
    reply itself and is an array; any other reply is [bad_response]. *)
Theorem get_active_tasks_returns_arrays c (tasks : json) :
  outcome (get_active_tasks c) = inr tasks ->
  is_array tasks = true
  /\ exists w,
       exchange (auth c) (usr c) (mk_request "/_active_tasks" "GET" "" false)
                (wire c)
       = (w, inr tasks).
Proof.
  unfold get_active_tasks, bind, get_data, outcome.
  destruct (exchange (auth c) (usr c)
              (mk_request "/_active_tasks" "GET" "" false) (wire c))
    as [w [e|response]]; cbn; [discriminate|].
  destruct (is_array response) eqn:Harr; cbn; [|discriminate].
  intros [= <-]. split; [exact Harr | now exists w].
Qed.

(** X9: the document [create_user] sends: its ["name"] is the name given, its
    ["type"] is ["user"], its ["password"] is [null] when the password given
    is empty and that password otherwise, and it has a ["roles"] member, the
    roles given, exactly when those are an array; it goes by PUT to the
    user's document. *)
Theorem create_user_document (name pass : string) (roles : json) c :
  exists obj,
    requests (journal (final (create_user name pass roles c)))
    = requests (journal c) ++ [user_request name "PUT" (json_to_string obj)]
    /\ at_key obj "name" = JString name
    /\ at_key obj "type" = JString "user"
    /\ at_key obj "password"
       = (if String.eqb pass "" then JNull else JString pass)
    /\ is_member "roles" obj = is_array roles
    /\ at_key obj "roles" = (if is_array roles then roles else JNull).
Proof.
  unfold create_user, get_data, final.
  match goal with
  | |- context [json_to_string ?o] => exists o
  end.
  fold (user_request name "PUT"
          (json_to_string
             (JObject
                ([("name", JString name);
                  ("password", if empty pass then JNull else JString pass)]
                 ++ (if is_array roles then [("roles", roles)] else [])
                 ++ [("type", JString "user")])))).
  destruct (exchange _ _ _ _) as [w r]. cbn [fst].
  split.
  - cbn. rewrite requests_app. reflexivity.
  - rewrite empty_eqb. destruct (is_array roles); cbn; now repeat split.
Qed.

(** X10: [create_user], [get_user_info] and [delete_user] work on one and
    the same document path for a name and hand back the server's reply
    unexamined: none of them throws on its own. *)
Theorem user_calls_pass_the_reply_through
        (name pass : string) (roles : json) :
  let document := ("/_users/org.couchdb.user:" ++ url_encode name)%string in
  passes_through (create_user name pass roles) document "PUT"
  /\ passes_through (get_user_info name) document "GET"
  /\ passes_through (delete_user name) document "DELETE".
Proof.
  cbv zeta. repeat apply conj; intros c;
    unfold create_user, get_user_info, delete_user, get_data, outcome, final;
    match goal with
    | |- context [exchange ?t ?u ?q ?w0] =>
        exists q; destruct (exchange t u q w0) as [w r] eqn:Hx; exists w
    end; cbn; now repeat split.
Qed.

Lemma prefix_append (p s : string) : String.prefix p (p ++ s) = true.
Proof.
  induction p as [|a p IH]; simpl; [apply prefix_empty|].
  now destruct (ascii_dec a a).
Qed.

Lemma erase_front_append (p s : string) :
  erase_front (String.length p) (p ++ s) = s.
Proof. induction p as [|a p IH]; simpl; [reflexivity | exact IH]. Qed.

Lemma list_user_names_step_user_row (names : list string) (name : string) :
  name <> ""%string ->
  list_user_names_step names (user_row name) = names ++ [name].
Proof.
  intros Hname. unfold list_user_names_step, user_row.
  cbn [at_key member String.eqb Ascii.eqb Bool.eqb get_string].
  rewrite find_char_front, find_str_front.
  change (begins_with "_" (user_prefix ++ name)) with false.
  unfold begins_with. rewrite prefix_append, erase_front_append.
  cbn [at_front]. now destruct name.
Qed.

Lemma fold_user_rows (names : list string) :
  Forall (fun name => name <> ""%string) names ->
  forall acc,
    fold_left list_user_names_step (map user_row names) acc = acc ++ names.
Proof.
  induction 1 as [|name names Hname _ IH]; intros acc; cbn.
  - now rewrite app_nil_r.
  - rewrite (list_user_names_step_user_row _ _ Hname), IH.
    now rewrite <- app_assoc.
Qed.

(** X11: the users come back under their names: when the rows of the reply
    are those of the users [names], none of them empty, [list_user_names]
    returns exactly [names]. *)
Theorem list_user_names_lists_the_users
        (names : list string) c w (response : json) :
  exchange (auth c) (usr c) all_users_request (wire c) = (w, inr response) ->
  is_object response = true ->
  at_key response "rows" = JArray (map user_row names) ->
  Forall (fun name => name <> ""%string) names ->
  outcome (list_user_names c) = inr names.
Proof.
  intros Hx Hobj Hrows Hnames.
  unfold list_user_names, outcome, bind, get_data.
  fold all_users_request. rewrite Hx. cbn. rewrite Hobj, Hrows. cbn. f_equal.
  now rewrite (fold_user_rows _ Hnames).
Qed.

Lemma list_user_names_step_nonempty (names : list string) (row : json) :
  Forall (fun name => name <> ""%string) names ->
  Forall (fun name => name <> ""%string) (list_user_names_step names row).
Proof.
  intros Hnames. unfold list_user_names_step.
  destruct (at_front (find_char "_" _)); [exact Hnames|].
  match goal with
  | |- context [negb (empty ?n)] => destruct n eqn:Hn
  end; cbn [empty negb]; [exact Hnames|].
  apply Forall_app. split; [exact Hnames|].
  constructor; [discriminate | constructor].
Qed.

(** X12: [list_user_names] never returns an empty name. *)
Theorem list_user_names_never_empty c (names : list string) :
  outcome (list_user_names c) = inr names ->
  Forall (fun name => name <> ""%string) names.
Proof.
  unfold list_user_names, outcome, bind, get_data.
  destruct (exchange _ _ _ _) as [w [e|response]]; cbn; [discriminate|].
  destruct (negb (is_object response)
            || negb (is_array (at_key response "rows"))); cbn;
    [discriminate|].
  intros [= <-].
  assert (Hgen : forall rows acc,
            Forall (fun name => name <> ""%string) acc ->
            Forall (fun name => name <> ""%string)
                   (fold_left list_user_names_step rows acc)).
  { induction rows as [|row rows IH]; intros acc Hacc; cbn; [exact Hacc|].
    apply IH. now apply list_user_names_step_nonempty. }
  apply Hgen. constructor.
Qed.

(** ** Database objects and database names *)

Lemma build_each_outcome (keep : string -> bool) (items : list json) :
  forall (dbs : list database) c,
    outcome (build_each keep items dbs c)
    = inr (dbs ++ map mk_database (filter keep (map get_string items))).
Proof.
  induction items as [|item items IH]; intros dbs c; cbn.
  - now rewrite app_nil_r.
  - destruct (keep (get_string item)).
    + unfold bind, new_database. rewrite IH. cbn. now rewrite <- app_assoc.
    + apply IH.
Qed.

Lemma filter_all {A} (l : list A) : filter (fun _ => true) l = l.
Proof. induction l as [|x l IH]; cbn; [reflexivity | now rewrite IH]. Qed.

(** X13: [list_dbs] and [list_all_dbs] return one [database] for each name
    that [list_db_names] and [list_all_db_names] return on the same
    connection, in the same order, and throw what those throw. *)
Theorem list_dbs_follow_the_names c :
  outcome (list_dbs c)
  = match outcome (list_db_names c) with
    | inr names => inr (map mk_database names)
    | inl e => inl e
    end
  /\ outcome (list_all_dbs c)
     = match outcome (list_all_db_names c) with
       | inr names => inr (map mk_database names)
       | inl e => inl e
       end.
Proof.
  unfold list_dbs, list_all_dbs, list_db_names, list_all_db_names,
    bind, get_data.
  destruct (exchange _ _ _ _) as [w [e|response]]; [now split|].
  cbv beta iota zeta.
  destruct (negb (is_array response)); [now split|].
  rewrite !build_each_outcome. unfold outcome, ret. cbn [snd app].
  split; do 2 f_equal.
  - rewrite (fold_left_push _
               (fun item => if not_reserved (get_string item)
                            then [get_string item] else [])).
    + now rewrite flat_map_filter_map.
    + intros acc x. destruct (not_reserved (get_string x));
        now rewrite ?app_nil_r.
  - rewrite (fold_left_push _ (fun item => [get_string item]));
      [|reflexivity].
    now rewrite flat_map_singleton, filter_all.
Qed.

(** ** What the operations leave alone *)

Section Steadiness.

Context (R : connection W -> connection W -> Prop) {HR : Stable R}.












End Steadiness.

#[local] Instance same_session_stable : Stable (@same_session W).
Proof. split; unfold same_session; cbn; intuition congruence. Qed.

#[local] Instance same_cache_stable : Stable (@same_cache W).
Proof. split; unfold same_cache; cbn; intuition congruence. Qed.






(** X16: after a version query that returned, the two cached fields agree:
    [couchdb_major] is the major version of [couchDBVersion], and the value
    returned is the cached one; after a version query that threw, both
    fields are as they were. *)
Theorem version_cache_is_consistent c :
  match outcome (get_major_version c) with
  | inr m =>
      couchdb_major (final (get_major_version c)) = m
      /\ m = major_of_version (couchDBVersion (final (get_major_version c)))
  | inl _ => same_cache c (final (get_major_version c))
  end
  /\ match outcome (get_couchdb_version c) with
     | inr v =>
         couchDBVersion (final (get_couchdb_version c)) = v
         /\ couchdb_major (final (get_couchdb_version c))
            = major_of_version v
     | inl _ => same_cache c (final (get_couchdb_version c))
     end.
Proof.
  destruct (exchange (auth c) (usr c) root_request (wire c))
    as [w reply] eqn:Hx.
  unfold get_major_version, get_couchdb_version, bind, gets, outcome, final.
  rewrite (get_couchdb_info_run _ _ _ Hx).
  destruct reply as [e|response]; [now repeat split|].
  destruct (is_object response); now repeat split.
Qed.

(** ** The major version as a number *)

(** X17: the major version kept after a fetch always fits an [int], and a
    leading integer too large or too small for one gives [-1], not a wrapped
    value. *)
Theorem major_version_fits_int (version : string) :
  (INT_MIN <= major_of_version version <= INT_MAX)%Z
  /\ (forall v, leading_integer (major_component version) v ->
                (v < INT_MIN \/ INT_MAX < v)%Z ->
                major_of_version version = (-1)%Z).
Proof.
  split.
  - unfold major_of_version, extract_int.
    destruct (read_sign _) as [negative digits].
    destruct (read_digits 0 0 digits) as [magnitude [|count]];
      [now compute|].
    cbv zeta. unfold in_int_range.
    destruct (INT_MIN <=? _)%Z eqn:Hlo; [|now compute].
    destruct (_ <=? INT_MAX)%Z eqn:Hhi; [|now compute].
    cbn [andb]. apply Z.leb_le in Hlo, Hhi. now split.
  - intros v Hlead Hout. unfold major_of_version.
    rewrite (extract_int_leading _ _ Hlead). unfold in_int_range.
    destruct Hout as [Hlow | Hhigh].
    + apply Z.leb_gt in Hlow. now rewrite Hlow.
    + apply Z.leb_gt in Hhigh. rewrite Hhigh. now rewrite andb_false_r.
Qed.

Lemma string_of_uint_digits (d : Decimal.uint) :
  all_chars is_digit (NilEmpty.string_of_uint d) = true.
Proof. induction d; cbn [NilEmpty.string_of_uint all_chars]; trivial. Qed.

Lemma string_of_uint_length (d : Decimal.uint) :
  Z.of_nat (String.length (NilEmpty.string_of_uint d))
  = Z.of_N (DecimalPos.Unsigned.usize d).
Proof.
  induction d; cbn [NilEmpty.string_of_uint String.length
                    DecimalPos.Unsigned.usize]; [reflexivity|..];
    rewrite Nat2Z.inj_succ, N2Z.inj_succ; now f_equal.
Qed.

Lemma string_of_uint_value (d : Decimal.uint) :
  decimal_value (NilEmpty.string_of_uint d)
  = Z.of_N (DecimalPos.Unsigned.of_lu (Decimal.rev d)).
Proof.
  induction d; [reflexivity|..];
    cbn [NilEmpty.string_of_uint decimal_value];
    unfold Decimal.rev; cbn [Decimal.revapp];
    rewrite (DecimalPos.Unsigned.of_lu_revapp d);
    rewrite IHd, string_of_uint_length;
    rewrite N2Z.inj_add, N2Z.inj_mul, N2Z.inj_pow;
    match goal with
    | |- context [digit_value ?a] =>
        let v := eval compute in (digit_value a) in
        change (digit_value a) with v
    end;
    match goal with
    | |- context [DecimalPos.Unsigned.of_lu (?D Decimal.Nil)] =>
        let v := eval compute in
                   (Z.of_N (DecimalPos.Unsigned.of_lu (D Decimal.Nil))) in
        change (Z.of_N (DecimalPos.Unsigned.of_lu (D Decimal.Nil))) with v
    end;
    change (Z.of_N 10) with 10%Z; ring.
Qed.

Lemma digits_have_no_dot (s : string) :
  all_chars is_digit s = true -> find_char "." s = None.
Proof.
  induction s as [|a s IH]; cbn; [reflexivity|].
  intros [Ha Hs]%andb_prop. rewrite (IH Hs).
  destruct (Ascii.eqb_spec a ".") as [->|_]; [discriminate | reflexivity].
Qed.

Lemma to_string_digits (n : N) :
  to_string n <> ""%string
  /\ all_chars is_digit (to_string n) = true
  /\ decimal_value (to_string n) = Z.of_N n.
Proof.
  unfold to_string.
  assert (Hnil : N.to_uint n <> Decimal.Nil).
  { destruct n; [discriminate | apply DecimalPos.Unsigned.to_uint_nonnil]. }
  assert (Hsame : NilZero.string_of_uint (N.to_uint n)
                  = NilEmpty.string_of_uint (N.to_uint n)).
  { unfold NilZero.string_of_uint. now destruct (N.to_uint n). }
  rewrite Hsame. split; [|split].
  - destruct (N.to_uint n); [contradiction|..]; discriminate.
  - apply string_of_uint_digits.
  - rewrite string_of_uint_value, <- DecimalPos.Unsigned.of_uint_alt.
    change (Pos.of_uint (N.to_uint n)) with (N.of_uint (N.to_uint n)).
    now rewrite DecimalN.Unsigned.of_to.
Qed.

(** X18: a version that starts with the decimal digits of [n], followed by
    a ['.'] and anything else, has major version [n], for every [n] that
    fits an [int]. *)
Theorem major_version_of_printed_number (n : N) (rest : string) :
  (Z.of_N n <= INT_MAX)%Z ->
  major_of_version (to_string n ++ "." ++ rest)%string = Z.of_N n.
Proof.
  intros Hfits.
  destruct (to_string_digits n) as (Hne & Hdigits & Hvalue).
  unfold major_of_version.
  destruct (major_component_cut (to_string n) rest
              (digits_have_no_dot _ Hdigits)) as [-> _].
  rewrite (extract_int_leading (to_string n) (Z.of_N n)).
  - unfold in_int_range.
    assert (Hlo : (INT_MIN <=? Z.of_N n)%Z = true).
    { apply Z.leb_le. unfold INT_MIN. lia. }
    apply Z.leb_le in Hfits. now rewrite Hlo, Hfits.
  - apply (leading_integer_intro _ _ "" "" (to_string n) "" 1%Z);
      try assumption; try reflexivity; [|constructor|lia].
    cbn [append]. clear. induction (to_string n) as [|a s IH]; cbn;
      [reflexivity | now rewrite <- IH].
Qed.

End Further.

(* ================================================================== *)
(** * The further properties on the scripted server *)

(** A DELETE answered with [ok: true]. *)
Lemma remove_db_classifies_reply_witness :
  exchange (auth server_saying_ok) (usr server_saying_ok)
           (delete_request "alpha") (wire server_saying_ok)
  = ([], inr (JObject [("ok", JBool true)]))
  /\ outcome (remove_db "alpha" server_saying_ok) = inr tt.
Proof.
  split; [reflexivity|].
  pose proof (remove_db_classifies_reply "alpha" server_saying_ok []
                (JObject [("ok", JBool true)]) eq_refl)
    as (Hreturns & _).
  exact (proj2 Hreturns (conj eq_refl (conj eq_refl eq_refl))).
Defined.

(** A DELETE that the server refuses. *)
Lemma ensure_db_is_deleted_swallows_refusals_witness :
  outcome (remove_db "alpha" server_refusing_delete)
  = inl (mk_error database_not_deletable "You are not a server admin.")
  /\ outcome (ensure_db_is_deleted "alpha" server_refusing_delete) = inr tt.
Proof.
  split; [reflexivity|].
  pose proof (ensure_db_is_deleted_swallows_refusals
                "alpha" server_refusing_delete []
                (inr (JObject [("error", JString "unauthorized");
                               ("reason",
                                JString "You are not a server admin.")]))
                eq_refl)
    as (Hswallowed & _).
  exact (Hswallowed _ eq_refl).
Defined.

(** A PUT answered with [ok: true]. *)
Lemma create_db_returns_only_on_ok_witness :
  created_ok (JObject [("ok", JBool true)]) = true
  /\ outcome (create_db "alpha" server_saying_ok) = inr (mk_database "alpha").
Proof.
  split; [reflexivity|].
  pose proof (create_db_returns_only_on_ok "alpha" server_saying_ok []
                (JObject [("ok", JBool true)]) eq_refl)
    as (Hreturns & _).
  exact (proj2 Hreturns eq_refl).
Defined.

(** A login on [auth_basic] that the server accepts. *)
Lemma login_requests_witness :
  auth (server_accepting_login auth_basic) = auth_basic
  /\ requests (journal (final (login (server_accepting_login auth_basic))))
     = [session_post (mk_user "admin" "secret"); session_delete].
Proof.
  split; [reflexivity|].
  pose proof (login_requests (server_accepting_login auth_basic)
                [inr (JObject [("ok", JBool true)])]
                (inr (JObject [("ok", JBool true)])) eq_refl)
    as (_ & _ & _ & Hbasic).
  exact (Hbasic eq_refl _ eq_refl).
Defined.

(** A logout on [auth_cookie]. *)
Lemma session_calls_need_cookie_witness :
  auth (server_accepting_login auth_cookie) = auth_cookie
  /\ outcome (logout (server_accepting_login auth_cookie)) = inr tt.
Proof.
  split; [reflexivity|].
  pose proof (session_calls_need_cookie (server_accepting_login auth_cookie)
                [inr (JObject [("ok", JBool true)])]
                (inr (JObject [("ok", JBool true)])) eq_refl)
    as (_ & Hcookie).
  exact (proj2 (Hcookie eq_refl)).
Defined.

(** Five identifiers asked for, two sent. *)
Lemma get_uuids_returns_what_was_sent_witness :
  outcome (get_uuids 5 server_with_two_uuids)
  = inr ["6e1295ed6c29495e54cc05947f18c8af";
         "4b4c4c3e5a2b4a2dd5cf5e0a4a0b0f1c"]%string
  /\ requests (journal (final (get_uuids 5 server_with_two_uuids)))
     = [mk_request "/_uuids?count=5" "GET" "" false].
Proof.
  pose proof (get_uuids_returns_what_was_sent 5 server_with_two_uuids []
                (inr (JObject
                        [("uuids",
                          JArray [JString "6e1295ed6c29495e54cc05947f18c8af";
                                  JString "4b4c4c3e5a2b4a2dd5cf5e0a4a0b0f1c"])]))
                eq_refl)
    as (Hsent & _ & Hrequest).
  split; [exact (Hsent _ _ eq_refl eq_refl eq_refl) | exact Hrequest].
Defined.

(** One running task. *)
Lemma get_active_tasks_returns_arrays_witness :
  outcome (get_active_tasks server_with_tasks)
  = inr (JArray [JObject [("type", JString "indexer")]])
  /\ is_array (JArray [JObject [("type", JString "indexer")]]) = true.
Proof.
  split; [reflexivity|].
  exact (proj1 (get_active_tasks_returns_arrays server_with_tasks
                  (JArray [JObject [("type", JString "indexer")]]) eq_refl)).
Defined.

(** The users alice and bob. *)
Lemma list_user_names_lists_the_users_witness :
  Forall (fun name => name <> ""%string) ["alice"; "bob"]%string
  /\ outcome (list_user_names (server_named ["alice"; "bob"]%string))
     = inr ["alice"; "bob"]%string.
Proof.
  assert (Hnames : Forall (fun name => name <> ""%string)
                          ["alice"; "bob"]%string).
  { repeat constructor; discriminate. }
  split; [exact Hnames|].
  exact (list_user_names_lists_the_users ["alice"; "bob"]%string
           (server_named ["alice"; "bob"]%string) []
           (JObject [("rows", JArray (map user_row ["alice"; "bob"]%string))])
           eq_refl eq_refl eq_refl Hnames).
Defined.

Lemma list_user_names_never_empty_witness :
  outcome (list_user_names (server_named ["alice"; ""; "bob"]%string))
  = inr ["alice"; "bob"]%string
  /\ Forall (fun name => name <> ""%string) ["alice"; "bob"]%string.
Proof.
  split; [reflexivity|].
  exact (list_user_names_never_empty
           (server_named ["alice"; ""; "bob"]%string)
           ["alice"; "bob"]%string eq_refl).
Defined.

(** Version 4294967298.0, whose leading integer is 2 modulo 2^32. *)
Lemma major_version_fits_int_witness :
  leading_integer (major_component "4294967298.0") 4294967298
  /\ INT_MAX < 4294967298
  /\ major_of_version "4294967298.0" = -1.
Proof.
  assert (Hlead : leading_integer (major_component "4294967298.0")
                                  4294967298).
  { apply (leading_integer_intro _ _ "" "" "4294967298" "" 1);
      try reflexivity; [constructor | discriminate]. }
  assert (Hbig : INT_MAX < 4294967298) by reflexivity.
  split; [exact Hlead|]. split; [exact Hbig|].
  exact (proj2 (major_version_fits_int "4294967298.0") _ Hlead
               (or_intror Hbig)).
Defined.

(** Version 3.2.1. *)
Lemma major_version_of_printed_number_witness :
  (Z.of_N 3 <= INT_MAX)%Z
  /\ major_of_version "3.2.1" = 3%Z.
Proof.
  assert (Hfits : (Z.of_N 3 <= INT_MAX)%Z) by (intros H; discriminate H).
  split; [exact Hfits|].
  exact (major_version_of_printed_number 3 "2.1" Hfits).
Defined.
